(** * ArcadisPInsight: validation, filtering, aggregation and insight rules

    A shallow embedding of the analytic core of the procurement dashboard:
    - [utils/data_manager.py]      : [load_data], [validate_data]
    - [app.py]                     : the upload handler and the Data Store
    - [pages/category_intelligence.py] : filters, top-3 concentration,
                                     concentration insight, period change
    - [pages/supplier_risk.py]     : filters, latest-quarter merge, score range
    - [pages/supplier_relationship.py] : spend percentile and supplier tier
    - [utils/visualizations.py]    : [create_supplier_chart],
                                     [create_risk_heatmap]

    Numbers are exact rationals ([Q]) and results over [Q] are compared
    with [==].  The supplier relationship page compares two sums that
    pandas computes with different float64 summations; there each
    summation is a parameter. *)

From Stdlib Require Import List String Ascii Bool Arith ZArith QArith Lia.
From Stdlib Require Import Permutation Sorted DecimalString Lqa OrderedTypeEx Qabs.
Import ListNotations.

Set Implicit Arguments.

Local Open Scope list_scope.
Local Open Scope string_scope.

(* ================================================================== *)
(** ** Python values shared by the modules *)

Module Py.

(** A call either returns or raises an exception carrying [str(e)]. *)
Inductive result (A : Type) : Type :=
| Ok (a : A)
| Raise (msg : string).
Arguments Ok {A} a.
Arguments Raise {A} msg.

Definition bind {A B} (r : result A) (k : A -> result B) : result B :=
  match r with
  | Ok a => k a
  | Raise msg => Raise msg
  end.

(** [s.endswith(suffix)] *)
Definition endswith (s suffix : string) : bool :=
  let n := String.length s in
  let m := String.length suffix in
  (m <=? n)%nat && String.eqb (substring (n - m) m s) suffix.

(** [str(n)] for a non-negative integer. *)
Definition str_of_nat (n : nat) : string :=
  NilZero.string_of_uint (Nat.to_uint n).

(** Comparisons on rationals as booleans. *)
Definition Qgtb (x y : Q) : bool := negb (Qle_bool x y).
Definition Qltb (x y : Q) : bool := negb (Qle_bool y x).
Definition Qgeb (x y : Q) : bool := Qle_bool y x.

(** [sum] of a numeric column. *)
Definition Qsum (l : list Q) : Q := fold_right Qplus 0%Q l.

End Py.

Notation "x <- c1 ;; c2" := (Py.bind c1 (fun x => c2))
  (at level 61, c1 at next level, right associativity).

(* ================================================================== *)
(** ** Parsed tables as the validator sees them *)

Module Frame.

(** The column dtypes pandas infers when it parses a file. *)
Inductive dtype : Type :=
| int64 | float64 | bool_ | object_ | datetime64.

(** [pd.api.types.is_numeric_dtype]: integers, floats and booleans. *)
Definition is_numeric_dtype (d : dtype) : bool :=
  match d with
  | int64 | float64 | bool_ => true
  | object_ | datetime64 => false
  end.

(** A cell: missing ([NaN]/[None]), a number, or text. *)
Inductive cell : Type :=
| Null
| Num (q : Q)
| Str (s : string).

Definition isnull (c : cell) : bool :=
  match c with Null => true | _ => false end.

(** A column: its label, its dtype and its values, one per row. *)
Record Series : Type := mkSeries {
  label  : string;
  dtype_ : dtype;
  values : list cell
}.

(** A table is the list of its columns, in file order.  The parsers make
    column labels unique, so a label selects one column. *)
Definition DataFrame : Type := list Series.

Definition columns (df : DataFrame) : list string := map label df.

(** [col in data.columns] *)
Definition has_column (df : DataFrame) (col : string) : bool :=
  existsb (String.eqb col) (columns df).

(** [data[col]]: raises [KeyError] when the column is absent. *)
Definition getitem (df : DataFrame) (col : string) : Py.result Series :=
  match find (fun s => String.eqb col (label s)) df with
  | Some s => Py.Ok s
  | None => Py.Raise ("'" ++ col ++ "'")
  end.

(** [series.isnull().sum()] *)
Definition isnull_sum (s : Series) : nat :=
  List.length (filter isnull (values s)).

End Frame.

(* ================================================================== *)
(** ** utils/data_manager.py *)

Module DataManager.
Import Py Frame.

(** The uploaded file object: its name and its raw contents. *)
Record UploadedFile : Type := mkFile {
  name    : string;
  content : string
}.

(** The data types the upload select box offers. *)
Inductive DataType : Type :=
| SpendData | SupplierMasterData | ContractData | PerformanceData.

Definition data_type_label (t : DataType) : string :=
  match t with
  | SpendData => "Spend Data"
  | SupplierMasterData => "Supplier Master Data"
  | ContractData => "Contract Data"
  | PerformanceData => "Performance Data"
  end.

Definition required_columns (t : DataType) : list string :=
  match t with
  | SpendData =>
      ["Supplier"; "Category"; "SubCategory"; "BusinessUnit"; "Date"; "Amount"]
  | SupplierMasterData =>
      ["SupplierID"; "SupplierName"; "Category"; "Country"; "City"; "ContactEmail"]
  | ContractData =>
      ["ContractID"; "SupplierID"; "StartDate"; "EndDate"; "Value"; "Category"]
  | PerformanceData =>
      ["SupplierID"; "Quarter"; "DeliveryScore"; "QualityScore";
       "ResponsivenessScore"; "OverallScore"]
  end.

Definition unsupported_msg : string :=
  "Unsupported file type. Please upload a CSV or Excel file.".

Section Parsers.
(** [pd.read_csv] and [pd.read_excel]: library parsers, which return a
    table or raise. *)
Variable read_csv   : UploadedFile -> result DataFrame.
Variable read_excel : UploadedFile -> result DataFrame.

Definition load_data (file : UploadedFile) (file_type : option string)
  : result DataFrame :=
  file_type <-
    match file_type with
    | Some t => Ok t
    | None =>
        if endswith (name file) ".csv" then Ok "csv"
        else if endswith (name file) ".xlsx" then Ok "excel"
        else Raise unsupported_msg
    end ;;
  if String.eqb file_type "csv" then read_csv file
  else if String.eqb file_type "excel" then read_excel file
  else Raise unsupported_msg.

(** [[col for col in required_columns if col not in data.columns]] *)
Definition missing_columns (t : DataType) (data : DataFrame) : list string :=
  filter (fun col => negb (has_column data col)) (required_columns t).

Definition missing_msg (missing : list string) : string :=
  "Missing required columns: " ++ String.concat ", " missing.

(** What [validate_data] returns: [(is_valid, message, data)]. *)
Definition validation : Type := (bool * string * option DataFrame)%type.

Definition is_valid (v : validation) : bool := fst (fst v).
Definition message (v : validation) : string := snd (fst v).
Definition data_of (v : validation) : option DataFrame := snd v.

(** The body of the [try] block. *)
Definition validate_body (file : UploadedFile) (data_type : DataType)
  : result validation :=
  if negb (endswith (name file) ".csv") && negb (endswith (name file) ".xlsx")
  then Ok (false, unsupported_msg, None)
  else
    let file_type :=
      if endswith (name file) ".csv" then "csv" else "excel" in
    data <- load_data file (Some file_type) ;;
    let missing := missing_columns data_type data in
    match missing with
    | _ :: _ => Ok (false, missing_msg missing, None)
    | [] =>
        match data_type with
        | SpendData =>
            amount <- getitem data "Amount" ;;
            if negb (is_numeric_dtype (dtype_ amount))
            then Ok (false, "Amount column must contain numeric values", None)
            else
              supplier <- getitem data "Supplier" ;;
              let null_suppliers := isnull_sum supplier in
              if (0 <? null_suppliers)%nat
              then Ok (false,
                       "Found " ++ str_of_nat null_suppliers
                         ++ " rows with missing supplier information",
                       None)
              else Ok (true, "Data validated successfully", Some data)
        | _ => Ok (true, "Data validated successfully", Some data)
        end
    end.

(** [try: ... except Exception as e: return False, f"...{str(e)}", None] *)
Definition validate_data (file : UploadedFile) (data_type : DataType)
  : validation :=
  match validate_body file data_type with
  | Ok v => v
  | Raise msg => (false, "Error during validation: " ++ msg, None)
  end.

End Parsers.

End DataManager.

(* ================================================================== *)
(** ** app.py: the Data Store and the upload handler *)

Module App.
Import Py Frame DataManager.

(** [st.session_state]: the four tables.  A slot holds whatever Python
    object was assigned to it; [None] is Python's [None]. *)
Record session_state : Type := mkState {
  spend_data       : option DataFrame;
  supplier_data    : option DataFrame;
  contract_data    : option DataFrame;
  performance_data : option DataFrame
}.

Definition data_type_map (t : DataType) : string :=
  match t with
  | SpendData => "spend_data"
  | SupplierMasterData => "supplier_data"
  | ContractData => "contract_data"
  | PerformanceData => "performance_data"
  end.

(** [st.session_state[state_var] = data], for the four keys that
    [data_type_map] can give. *)
Definition setitem (st : session_state) (state_var : string)
           (data : option DataFrame) : session_state :=
  if String.eqb state_var "spend_data" then
    mkState data (supplier_data st) (contract_data st) (performance_data st)
  else if String.eqb state_var "supplier_data" then
    mkState (spend_data st) data (contract_data st) (performance_data st)
  else if String.eqb state_var "contract_data" then
    mkState (spend_data st) (supplier_data st) data (performance_data st)
  else if String.eqb state_var "performance_data" then
    mkState (spend_data st) (supplier_data st) (contract_data st) data
  else st.

Definition getitem_state (st : session_state) (state_var : string)
  : option DataFrame :=
  if String.eqb state_var "spend_data" then spend_data st
  else if String.eqb state_var "supplier_data" then supplier_data st
  else if String.eqb state_var "contract_data" then contract_data st
  else if String.eqb state_var "performance_data" then performance_data st
  else None.

(** What the sidebar shows after an upload. *)
Inductive notice : Type :=
| success (text : string)
| error (text : string).

Section Upload.
Variable read_csv   : UploadedFile -> result DataFrame.
Variable read_excel : UploadedFile -> result DataFrame.

(** The [if uploaded_file is not None:] block. *)
Definition handle_upload (st : session_state) (uploaded_file : UploadedFile)
           (data_type : DataType) : session_state * notice :=
  let state_var := data_type_map data_type in
  let '(is_valid, message, data) :=
    validate_data read_csv read_excel uploaded_file data_type in
  if is_valid
  then (setitem st state_var data,
        success (data_type_label data_type ++ " loaded successfully!"))
  else (st, error message).

End Upload.

End App.

(* ================================================================== *)
(** ** The table operations the pages use

    Once a table has passed the validator, the pages read its columns by
    name.  Rows are records of the columns a page reads, and a table is
    the list of its rows in index order. *)

Module Pandas.
Import Py.

Section Keys.
Variable K : Type.
Variable cmp : K -> K -> comparison.

(** Insertion of a key into a sorted list without duplicates. *)
Fixpoint insert_key (k : K) (ks : list K) : list K :=
  match ks with
  | [] => [k]
  | k' :: rest =>
      match cmp k k' with
      | Lt => k :: ks
      | Eq => ks
      | Gt => k' :: insert_key k rest
      end
  end.

(** The distinct keys in ascending order: the index of a group-by or
    of a pivot. *)
Definition sorted_unique (ks : list K) : list K :=
  fold_right insert_key [] ks.

Definition key_eqb (a b : K) : bool :=
  match cmp a b with Eq => true | _ => false end.

Section GroupBy.
Variable row : Type.
(** The key of a row; [None] when a key column is missing ([NaN]). *)
Variable key : row -> option K.

Definition has_key (k : K) (r : row) : bool :=
  match key r with
  | Some k' => key_eqb k' k
  | None => false
  end.


Definition keys_of (df : list row) : list K :=
  flat_map (fun r => match key r with Some k => [k] | None => [] end) df.

(** [df.groupby(keys)]: one group per distinct key, groups in
    ascending key order, rows of a group in table order; rows with
    a missing key belong to no group ([dropna=True]). *)
Definition groupby (df : list row) : list (K * list row) :=
  map (fun k => (k, filter (has_key k) df)) (sorted_unique (keys_of df)).

(** [.groupby(keys)[value].sum().reset_index()] *)
Definition groupby_sum (value : row -> Q) (df : list row) : list (K * Q) :=
  map (fun g => (fst g, Qsum (map value (snd g)))) (groupby df).

(** [series.mean()], taken over groups, which are never empty. *)
Definition mean (l : list Q) : Q :=
  Qsum l / inject_Z (Z.of_nat (List.length l)).

(** [.groupby(keys)[value].mean().reset_index()] *)
Definition groupby_mean (value : row -> Q) (df : list row) : list (K * Q) :=
  map (fun g => (fst g, mean (map value (snd g)))) (groupby df).
End GroupBy.
End Keys.

(** Lexicographic order on pairs of keys. *)
Definition cmp_pair {A B} (ca : A -> A -> comparison) (cb : B -> B -> comparison)
           (x y : A * B) : comparison :=
  match ca (fst x) (fst y) with
  | Eq => cb (snd x) (snd y)
  | c => c
  end.

Section Rows.
Variable row : Type.

(** [df[df[col] == value]] *)
Definition select_eq (col : row -> string) (value : string) (df : list row)
  : list row :=
  filter (fun r => String.eqb (col r) value) df.

(** Insertion into a list sorted by descending measure.  pandas' default
    sort leaves the order of tied rows open; here a row goes before the
    rows it ties with. *)
Fixpoint insert_desc (measure : row -> Q) (r : row) (l : list row) : list row :=
  match l with
  | [] => [r]
  | r' :: rest =>
      if Qle_bool (measure r') (measure r) then r :: l
      else r' :: insert_desc measure r rest
  end.

(** [df.sort_values(col, ascending=False)] *)
Definition sort_values_desc (measure : row -> Q) (df : list row) : list row :=
  fold_right (insert_desc measure) [] df.

(** [df.head(n)] *)
Definition head (n : nat) (df : list row) : list row := firstn n df.
End Rows.

(** [left.merge(right, on=key, how='left')]: every left row once per
    matching right row, in left order; a left row without a match
    appears once with the right columns missing. *)
Definition merge_left {L R} (on_l : L -> string) (on_r : R -> string)
           (left : list L) (right : list R) : list (L * option R) :=
  flat_map
    (fun l =>
       match filter (fun r => String.eqb (on_r r) (on_l l)) right with
       | [] => [(l, None)]
       | matches => map (fun r => (l, Some r)) matches
       end)
    left.

(** [series.unique()]: the distinct values in order of first appearance. *)
Fixpoint unique (l : list string) : list string :=
  match l with
  | [] => []
  | x :: rest => x :: filter (fun y => negb (String.eqb y x)) (unique rest)
  end.

(** [(series <= bound).mean()]: the share of entries at or below [bound]. *)
Definition share_le (l : list Q) (bound : Q) : Q :=
  inject_Z (Z.of_nat (List.length (filter (fun t => Qle_bool t bound) l)))
  / inject_Z (Z.of_nat (List.length l)).

End Pandas.

(* ================================================================== *)
(** ** Frames held by reference

    A DataFrame is a mutable object.  [copy()] and boolean indexing
    allocate a new frame; they never write to the frame they read. *)

Module Heap.
Import Py.

Section Frames.
Variable frame : Type.

Definition ref : Type := nat.
Definition heap : Type := list frame.

(** A computation on the heap returns or raises. *)
Definition M (A : Type) : Type := heap -> result (A * heap).

Definition ret {A} (a : A) : M A := fun h => Ok (a, h).

Definition bind {A B} (m : M A) (k : A -> M B) : M B :=
  fun h =>
    match m h with
    | Ok (a, h') => k a h'
    | Raise msg => Raise msg
    end.

Definition deref (r : ref) (h : heap) : option frame := nth_error h r.

Definition read (r : ref) : M frame :=
  fun h =>
    match deref r h with
    | Some f => Ok (f, h)
    | None => Raise "dangling reference"
    end.

Definition alloc (f : frame) : M ref :=
  fun h => Ok (List.length h, (h ++ [f])%list).

(** [df.copy()] *)
Definition copy (r : ref) : M ref :=
  bind (read r) alloc.

(** [df[mask]] where the mask is computed from [df]. *)
Definition index_by (select : frame -> frame) (r : ref) : M ref :=
  bind (read r) (fun f => alloc (select f)).
End Frames.

End Heap.

Notation "x <~ c1 ;; c2" := (Heap.bind c1 (fun x => c2))
  (at level 61, c1 at next level, right associativity).

(* ================================================================== *)
(** ** The filter step shared by the pages *)

Module FilterEngine.
Import Pandas.

Section Stage.
Variable row : Type.

(** [if selected != all_label: df = df[df[col] == selected]] *)
Definition filter_stage (col : row -> string) (all_label selected : string)
           (df : Heap.ref) : Heap.M (list row) Heap.ref :=
  if negb (String.eqb selected all_label)
  then Heap.index_by (select_eq col selected) df
  else Heap.ret df.

(** The rows a filter step keeps. *)
Definition keeps (col : row -> string) (all_label selected : string) (r : row)
  : bool :=
  String.eqb selected all_label || String.eqb (col r) selected.

End Stage.

End FilterEngine.

(* ================================================================== *)
(** ** The rows of the validated tables *)

Module Spend.
(** A calendar day, as [pd.to_datetime(...).dt.date] gives it. *)
Record date : Type := mkDate { year : nat; month : nat; day : nat }.

Definition date_leb (a b : date) : bool :=
  (year a <? year b)%nat
  || ((year a =? year b)%nat
      && ((month a <? month b)%nat
          || ((month a =? month b)%nat && (day a <=? day b)%nat))).

Definition zfill (width : nat) (s : string) : string :=
  String.concat "" (repeat "0" (width - String.length s)) ++ s.

(** [strftime('%Y-%m')]: a four-digit year and a two-digit month. *)
Definition strftime_Ym (d : date) : string :=
  zfill 4 (Py.str_of_nat (year d)) ++ "-" ++ zfill 2 (Py.str_of_nat (month d)).

Record row : Type := mkRow {
  Supplier     : string;
  Category     : string;
  SubCategory  : string;
  BusinessUnit : string;
  Date         : date;
  Amount       : Q
}.
End Spend.

Module Supplier.
Record row : Type := mkRow {
  SupplierID   : string;
  SupplierName : string;
  Category     : string;
  Country      : string
}.
End Supplier.

Module Performance.
Record row : Type := mkRow {
  SupplierID          : string;
  Quarter             : string;
  DeliveryScore       : Q;
  QualityScore        : Q;
  ResponsivenessScore : Q;
  OverallScore        : Q
}.
End Performance.

(* ================================================================== *)
(** ** pages/category_intelligence.py *)

Module CategoryIntelligence.
Import Py Pandas FilterEngine.

Definition frame : Type := list Spend.row.

Definition in_date_range (start_date end_date : Spend.date) (r : Spend.row) : bool :=
  Spend.date_leb start_date (Spend.Date r) && Spend.date_leb (Spend.Date r) end_date.

(** [if len(date_range) == 2: ...] *)
Definition date_stage (date_range : list Spend.date) (filtered_data : Heap.ref)
  : Heap.M frame Heap.ref :=
  match date_range with
  | [start_date; end_date] =>
      Heap.index_by (filter (in_date_range start_date end_date)) filtered_data
  | _ => Heap.ret filtered_data
  end.

(** The rows the date step keeps. *)
Definition keeps_dates (date_range : list Spend.date) (r : Spend.row) : bool :=
  match date_range with
  | [start_date; end_date] => in_date_range start_date end_date r
  | _ => true
  end.

(** The "Apply filters to data" block of [show]. *)
Definition apply_filters (spend_data : Heap.ref)
           (selected_category selected_bu : string)
           (date_range : list Spend.date) : Heap.M frame Heap.ref :=
  filtered_data <~ Heap.copy spend_data ;;
  filtered_data <~ filter_stage Spend.Category "All Categories"
                     selected_category filtered_data ;;
  filtered_data <~ filter_stage Spend.BusinessUnit "All Business Units"
                     selected_bu filtered_data ;;
  date_stage date_range filtered_data.

(** [filtered_data.groupby("Supplier")["Amount"].sum().reset_index()
      .sort_values("Amount", ascending=False).head(10)] *)
Definition supplier_totals (filtered_data : frame) : list (string * Q) :=
  groupby_sum String.compare (fun r => Some (Spend.Supplier r))
              Spend.Amount filtered_data.

Definition suppliers_df (filtered_data : frame) : list (string * Q) :=
  head 10 (sort_values_desc snd (supplier_totals filtered_data)).

Definition total_category_spend (filtered_data : frame) : Q :=
  Qsum (map Spend.Amount filtered_data).

Definition top3_spend (filtered_data : frame) : Q :=
  let suppliers_df := suppliers_df filtered_data in
  if (3 <=? List.length suppliers_df)%nat
  then Qsum (map snd (head 3 suppliers_df))
  else Qsum (map snd suppliers_df).

Definition top3_concentration (filtered_data : frame) : Q :=
  if Qgtb (total_category_spend filtered_data) 0
  then top3_spend filtered_data / total_category_spend filtered_data * 100
  else 0.

(** The boxes the concentration rules can show. *)
Inductive insight : Type :=
| HighConcentration
| FragmentedBase
| BalancedConcentration.

(** The [if / elif / elif] chain after the supplier chart; the result is
    the list of boxes written to the page. *)
Definition concentration_rule (top3_concentration : Q) (n_suppliers : nat)
  : list insight :=
  if Qgtb top3_concentration 75 then [HighConcentration]
  else if Qltb top3_concentration 30 && (7 <? n_suppliers)%nat
       then [FragmentedBase]
  else if Qle_bool 50 top3_concentration && Qle_bool top3_concentration 75
       then [BalancedConcentration]
  else [].

Definition concentration_insight (filtered_data : frame) : list insight :=
  concentration_rule (top3_concentration filtered_data)
                     (List.length (suppliers_df filtered_data)).

(** [filtered_data["Month"] = ....dt.strftime('%Y-%m')] *)
Definition Month (r : Spend.row) : string := Spend.strftime_Ym (Spend.Date r).

(** [filtered_data.groupby("Month")["Amount"].sum().reset_index()] *)
Definition monthly_totals (filtered_data : frame) : list (string * Q) :=
  groupby_sum String.compare (fun r => Some (Month r))
              Spend.Amount filtered_data.

Definition period_change (first_month last_month : Q) : Q :=
  if Qgtb first_month 0
  then (last_month - first_month) / first_month * 100
  else 0.

(** [change_pct]; [None] when fewer than three months are present and
    the trend statistics are not computed. *)
Definition change_pct (filtered_data : frame) : option Q :=
  let monthly_totals := monthly_totals filtered_data in
  if (3 <=? List.length monthly_totals)%nat
  then
    let first_month := snd (hd (""%string, 0) monthly_totals) in
    let last_month := snd (last monthly_totals (""%string, 0)) in
    Some (period_change first_month last_month)
  else None.

End CategoryIntelligence.

(* ================================================================== *)
(** ** pages/supplier_risk.py *)

Module SupplierRisk.
Import Py Pandas FilterEngine.

Definition frame : Type := list Supplier.row.

(** The "Apply filters to supplier data" block of [show]. *)
Definition apply_filters (supplier_data : Heap.ref)
           (selected_category selected_country : string)
  : Heap.M frame Heap.ref :=
  filtered_suppliers <~ Heap.copy supplier_data ;;
  filtered_suppliers <~ filter_stage Supplier.Category "All Categories"
                          selected_category filtered_suppliers ;;
  filter_stage Supplier.Country "All Countries"
               selected_country filtered_suppliers.

Definition str_max (a b : string) : string :=
  if String.leb a b then b else a.

(** [performance_data["Quarter"].max()]; [None] is the [NaN] of an
    empty column. *)
Definition latest_quarter (performance_data : list Performance.row)
  : option string :=
  match performance_data with
  | [] => None
  | p :: rest =>
      Some (fold_left str_max (map Performance.Quarter rest)
                      (Performance.Quarter p))
  end.

Definition latest_performance (performance_data : list Performance.row)
  : list Performance.row :=
  match latest_quarter performance_data with
  | Some q => select_eq Performance.Quarter q performance_data
  | None => []
  end.

(** A row of the merged table: the supplier columns and, when a
    performance row matched, the score columns. *)
Definition merged_row : Type := (Supplier.row * option Performance.row)%type.

Definition OverallScore (r : merged_row) : option Q :=
  option_map Performance.OverallScore (snd r).

(** [(score >= min_score) & (score <= max_score)]; a comparison with a
    missing score is false. *)
Definition score_in_range (min_score max_score : Q) (r : merged_row) : bool :=
  match OverallScore r with
  | Some s => Qgeb s min_score && Qle_bool s max_score
  | None => false
  end.

(** [supplier_performance] after the merge and the score filter. *)
Definition supplier_performance (filtered_suppliers : frame)
           (performance_data : list Performance.row)
           (score_range : Q * Q) : list merged_row :=
  let latest_performance := latest_performance performance_data in
  let supplier_performance :=
    merge_left Supplier.SupplierID Performance.SupplierID
               filtered_suppliers latest_performance in
  let '(min_score, max_score) := score_range in
  filter (score_in_range min_score max_score) supplier_performance.

End SupplierRisk.

(* ================================================================== *)
(** ** pages/supplier_relationship.py *)

Module SupplierRelationship.
Import Py Pandas.

(** [spend_data[spend_data["Supplier"] == supplier_name]] *)
Definition supplier_spend (spend_data : list Spend.row) (supplier_name : string)
  : list Spend.row :=
  select_eq Spend.Supplier supplier_name spend_data.

Section Sums.

(** The page adds amounts in two ways: with [Series.sum()] on the
    filtered [Amount] column, and with the group sums of
    [groupby("Supplier")["Amount"].sum()].  pandas computes the two with
    different float64 summations, which can round the same amounts to
    different values.  Each summation is a parameter of the page, and
    nothing relates one to the other. *)
Variable series_sum : list Q -> Q.
Variable group_sum : list Q -> Q.

(** [supplier_spend["Amount"].sum() if len(supplier_spend) > 0 else 0] *)
Definition total_spend (spend_data : list Spend.row) (supplier_name : string) : Q :=
  let supplier_spend := supplier_spend spend_data supplier_name in
  if (0 <? List.length supplier_spend)%nat
  then series_sum (map Spend.Amount supplier_spend)
  else 0.

(** [spend_data.groupby("Supplier")["Amount"].sum()] *)
Definition all_suppliers_spend (spend_data : list Spend.row) : list Q :=
  map (fun g => group_sum (map Spend.Amount (snd g)))
      (groupby String.compare (fun r => Some (Spend.Supplier r)) spend_data).

(** The supplier-tier metric of the overview: the percentile is computed
    only for a supplier with spend rows. *)
Definition tier_spend_percentile (spend_data : list Spend.row)
           (supplier_name : string) : option Q :=
  if (0 <? List.length (supplier_spend spend_data supplier_name))%nat
  then Some (share_le (all_suppliers_spend spend_data)
                      (total_spend spend_data supplier_name) * 100)
  else None.

Definition supplier_tier (spend_data : list Spend.row) (supplier_name : string)
  : string :=
  match tier_spend_percentile spend_data supplier_name with
  | Some spend_percentile =>
      if Qgeb spend_percentile 80 then "Strategic"
      else if Qgeb spend_percentile 50 then "Key"
      else "Standard"
  | None => "Unknown"
  end.

(** [SpendPercentile] of the segmentation overview. *)
Definition spend_percentile (spend_data : list Spend.row) (supplier_name : string)
  : Q :=
  let total_spend := total_spend spend_data supplier_name in
  if Qgtb total_spend 0
  then share_le (all_suppliers_spend spend_data) total_spend * 100
  else 0.

End Sums.

End SupplierRelationship.

(* ================================================================== *)
(** ** utils/visualizations.py *)

Module Visualizations.
Import Py Pandas.

(** *** create_supplier_chart *)

(** A row of [merged_data]: the performance columns and, when a supplier
    matched, its [SupplierName] and [Category]. *)
Definition merged_row : Type := (Performance.row * option Supplier.row)%type.

(** The group key [(SupplierID, SupplierName, Category)]. *)
Definition supplier_key : Type := (string * (string * string))%type.

Definition cmp_key : supplier_key -> supplier_key -> comparison :=
  cmp_pair String.compare (cmp_pair String.compare String.compare).

Definition group_key (r : merged_row) : option supplier_key :=
  match snd r with
  | Some s =>
      Some (Performance.SupplierID (fst r),
            (Supplier.SupplierName s, Supplier.Category s))
  | None => None
  end.

Definition merged_data (performance_data : list Performance.row)
           (supplier_data : list Supplier.row) : list merged_row :=
  merge_left Performance.SupplierID Supplier.SupplierID
             performance_data supplier_data.

(** [df_grouped] after [sort_values(metric, ascending=False)]. *)
Definition df_grouped (performance_data : list Performance.row)
           (supplier_data : list Supplier.row)
           (metric : Performance.row -> Q) : list (supplier_key * Q) :=
  sort_values_desc snd
    (groupby_mean cmp_key group_key (fun r => metric (fst r))
                  (merged_data performance_data supplier_data)).

(** The chart: the bars of the top 15 and the dashed average line. *)
Record bar_chart : Type := mkBarChart {
  bars      : list (supplier_key * Q);
  avg_score : Q
}.

Definition create_supplier_chart (performance_data : list Performance.row)
           (supplier_data : list Supplier.row)
           (metric : Performance.row -> Q) : bar_chart :=
  let df_grouped := df_grouped performance_data supplier_data metric in
  {| bars := head 15 df_grouped;
     avg_score := mean (map snd df_grouped) |}.

(** *** create_risk_heatmap *)








Section Heatmap.
Variable row : Type.
Variables x_dim y_dim : row -> string.
Variable value : row -> Q.














End Heatmap.

End Visualizations.

(* ================================================================== *)
(** ** What the validator checks, stated on the table *)

Module ValidatorSpec.
Import Py Frame DataManager.

(** Every required column of the data type is a column of the table. *)
Definition required_present (t : DataType) (df : DataFrame) : Prop :=
  forall col, In col (required_columns t) -> In col (columns df).

(** The [Amount] column has a numeric dtype. *)
Definition amount_numeric (df : DataFrame) : Prop :=
  exists amount,
    getitem df "Amount" = Ok amount /\ is_numeric_dtype (dtype_ amount) = true.

(** No row has a null [Supplier]. *)
Definition no_null_supplier (df : DataFrame) : Prop :=
  exists supplier,
    getitem df "Supplier" = Ok supplier /\
    forall c, In c (values supplier) -> isnull c = false.

Definition schema_ok (t : DataType) (df : DataFrame) : Prop :=
  required_present t df /\
  (t = SpendData -> amount_numeric df /\ no_null_supplier df).

End ValidatorSpec.

(* ================================================================== *)
(** ** Sample inputs *)

Module Samples.
Import Py Frame DataManager App.
Local Open Scope Q_scope.

Definition spend_frame : DataFrame :=
  [ mkSeries "Supplier" object_ [Str "Acme"; Str "Bolt"];
    mkSeries "Category" object_ [Str "HVAC"; Str "Plumbing"];
    mkSeries "SubCategory" object_ [Str "Chillers"; Str "Pipes"];
    mkSeries "BusinessUnit" object_ [Str "Healthcare"; Str "Education"];
    mkSeries "Date" object_ [Str "2024-01-05"; Str "2024-02-11"];
    mkSeries "Amount" float64 [Num 1200; Num 350] ].

(** A spend file without the [Date] and [Amount] columns. *)
Definition short_frame : DataFrame :=
  [ mkSeries "Supplier" object_ [Str "Acme"];
    mkSeries "Category" object_ [Str "HVAC"];
    mkSeries "SubCategory" object_ [Str "Chillers"];
    mkSeries "BusinessUnit" object_ [Str "Healthcare"] ].

Definition spend_file : UploadedFile := mkFile "spend.csv" "".
Definition broken_file : UploadedFile := mkFile "broken.xlsx" "".

Definition read_csv (file : UploadedFile) : result DataFrame :=
  if String.eqb (name file) "short.csv" then Ok short_frame else Ok spend_frame.

Definition read_excel (file : UploadedFile) : result DataFrame :=
  Raise "File is not a zip file".

Definition store : session_state :=
  mkState (Some spend_frame) (Some []) (Some []) (Some []).

End Samples.

(* ================================================================== *)
(** ** Sample rows *)

Module SampleRows.
Local Open Scope Q_scope.

Definition spend (supplier category bu : string) (y m d : nat) (amount : Q)
  : Spend.row :=
  Spend.mkRow supplier category "General" bu (Spend.mkDate y m d) amount.

Definition acme  : Supplier.row := Supplier.mkRow "S1" "Acme" "HVAC" "Germany".
Definition bolt  : Supplier.row := Supplier.mkRow "S2" "Bolt" "Plumbing" "France".

Definition perf (sid quarter : string) (score : Q) : Performance.row :=
  Performance.mkRow sid quarter score score score score.

(** [S1] is scored in both quarters, [S2] only in the earlier one, and
    [S9] is no supplier of the supplier table. *)
Definition performance : list Performance.row :=
  [ perf "S1" "2023-Q3" 7; perf "S2" "2023-Q3" 6;
    perf "S1" "2023-Q4" 8; perf "S9" "2023-Q4" 9 ].

(** Four suppliers with totals 100, 100, 100 and 700. *)
Definition four_suppliers : list Spend.row :=
  [ spend "A" "HVAC" "Healthcare" 2024 1 5 100;
    spend "B" "HVAC" "Healthcare" 2024 1 9 100;
    spend "C" "HVAC" "Education" 2024 2 3 100;
    spend "D" "Plumbing" "Education" 2024 3 7 700 ].

(** Three months whose first month nets to a credit of 100. *)
Definition credit_first : list Spend.row :=
  [ spend "A" "HVAC" "Healthcare" 2024 1 5 (-100);
    spend "B" "HVAC" "Healthcare" 2024 2 9 50;
    spend "C" "HVAC" "Education" 2024 3 3 100 ].

(** Two months, totalling 1000 and 1200. *)
Definition two_months : list Spend.row :=
  [ spend "A" "HVAC" "Healthcare" 2024 1 5 1000;
    spend "A" "HVAC" "Healthcare" 2024 2 9 1200 ].

(** One supplier whose only invoice is for zero. *)
Definition zero_invoice : list Spend.row :=
  [ spend "A" "HVAC" "Healthcare" 2024 1 5 0 ].

End SampleRows.

(* ================================================================== *)
(** ** Outcomes of heap computations *)

Module HeapSpec.
Import Py Heap.

Section Outcome.
Variable frame : Type.

(** Every frame of [h] is still in [h'], at the same reference and with
    the same contents. *)
Definition preserved (h h' : heap frame) : Prop :=
  forall r f, deref r h = Some f -> deref r h' = Some f.

(** [m] run on [h] returns a reference to a frame with contents [g] and
    leaves the frames of [h] as they were. *)
Definition yields (m : M frame ref) (h : heap frame) (g : frame) : Prop :=
  exists r h', m h = Ok (r, h') /\ deref r h' = Some g /\ preserved h h'.

End Outcome.

End HeapSpec.

(* ================================================================== *)
(** ** Orders on tables *)

Module OrderSpec.

(** The rows are in descending order of the measure. *)
Definition descending {row : Type} (measure : row -> Q) (l : list row) : Prop :=
  StronglySorted (fun a b => (measure b <= measure a)%Q) l.

(** The labels of the rows are in strictly ascending order. *)
Definition ascending_labels {A : Type} (l : list (string * A)) : Prop :=
  StronglySorted (fun a b => String.compare a b = Lt) (map fst l).

End OrderSpec.

(* ================================================================== *)
(** ** pages/category_intelligence.py: key metrics, trend box, defaults *)

Module CategoryOverview.
Import Py Pandas FilterEngine CategoryIntelligence.

(** The key metrics at the top of the page. *)
Definition total_spend (filtered_data : frame) : Q :=
  Qsum (map Spend.Amount filtered_data).

Definition avg_transaction (filtered_data : frame) : Q :=
  mean (map Spend.Amount filtered_data).

Definition transaction_count (filtered_data : frame) : nat :=
  List.length filtered_data.

(** [filtered_data["Supplier"].nunique()] *)
Definition supplier_count (filtered_data : frame) : nat :=
  List.length (unique (map Spend.Supplier filtered_data)).

(** The boxes the opportunity rules can show. *)
Inductive opportunity : Type :=
| SupplierConsolidation
| SupplyRisk
| SmallOrders.

(** The [if / elif / elif] chain under the metrics. *)
Definition opportunity_alert (filtered_data : frame) : list opportunity :=
  let supplier_count := supplier_count filtered_data in
  let transaction_count := transaction_count filtered_data in
  if (0 <? supplier_count)%nat && (0 <? transaction_count)%nat then
    let transactions_per_supplier :=
      inject_Z (Z.of_nat transaction_count)
      / inject_Z (Z.of_nat supplier_count) in
    if Qltb transactions_per_supplier 5 then [SupplierConsolidation]
    else if (supplier_count <? 3)%nat && Qgtb (total_spend filtered_data) 500000
         then [SupplyRisk]
    else if Qltb (avg_transaction filtered_data) 1000
            && (100 <? transaction_count)%nat
         then [SmallOrders]
    else []
  else [].

(** The trend box: its message and the call that shows it. *)
Inductive trend : Type :=
| StablePattern
| SignificantGrowth
| ModerateGrowth
| MajorReduction
| SpendingReduction.

Definition classify_trend (change_pct : Q) : trend * string :=
  if Qltb (Qabs change_pct) 5 then (StablePattern, "info")
  else if Qgtb change_pct 20 then (SignificantGrowth, "warning")
  else if Qgtb change_pct 0 then (ModerateGrowth, "info")
  else if Qltb change_pct (-20) then (MajorReduction, "success")
  else (SpendingReduction, "success").

(** The box shown for the filtered data; none with fewer than three
    months. *)
Definition trend_box (filtered_data : frame) : option (trend * string) :=
  option_map classify_trend (change_pct filtered_data).

(** [dates.min().date()] and [dates.max().date()]; [None] on an empty
    table. *)
Definition date_min (a b : Spend.date) : Spend.date :=
  if Spend.date_leb a b then a else b.

Definition date_max (a b : Spend.date) : Spend.date :=
  if Spend.date_leb a b then b else a.

Definition min_date (spend_data : frame) : option Spend.date :=
  match map Spend.Date spend_data with
  | [] => None
  | d :: rest => Some (fold_left date_min rest d)
  end.

Definition max_date (spend_data : frame) : option Spend.date :=
  match map Spend.Date spend_data with
  | [] => None
  | d :: rest => Some (fold_left date_max rest d)
  end.

(** The value the date input starts with: [(min_date, max_date)]. *)
Definition default_date_range (spend_data : frame) : list Spend.date :=
  match min_date spend_data, max_date spend_data with
  | Some lo, Some hi => [lo; hi]
  | _, _ => []
  end.

(** The dimensions handed to the heatmap. *)
Definition x_dimension (selected_category : string) : Spend.row -> string :=
  if String.eqb selected_category "All Categories"
  then Spend.Category else Spend.SubCategory.

Definition y_dimension (selected_bu : string) : Spend.row -> string :=
  if String.eqb selected_bu "All Business Units"
  then Spend.BusinessUnit else Spend.Supplier.

End CategoryOverview.

(* ================================================================== *)
(** ** utils/visualizations.py: the spend chart and the supplier map *)

Module Charts.
Import Py Pandas.



(** A marker of the supplier map: the supplier and, when performance
    data is given, its average [OverallScore] (missing when the supplier
    has no performance row). *)
Definition marker : Type := (Supplier.row * option (string * Q))%type.

Record supplier_map : Type := mkMap {
  markers  : list marker;
  color_by : string
}.

(** [performance_data.groupby('SupplierID')['OverallScore'].mean()] *)
Definition perf_avg (performance_data : list Performance.row)
  : list (string * Q) :=
  groupby_mean String.compare (fun p => Some (Performance.SupplierID p))
               Performance.OverallScore performance_data.

(** [create_supplier_map(supplier_data, performance_data)] *)
Definition create_supplier_map (supplier_data : list Supplier.row)
           (performance_data : option (list Performance.row)) : supplier_map :=
  match performance_data with
  | Some performance_data =>
      mkMap (merge_left Supplier.SupplierID fst supplier_data
                        (perf_avg performance_data))
            "OverallScore"
  | None =>
      mkMap (map (fun s => (s, None)) supplier_data) "Category"
  end.

End Charts.

(* ================================================================== *)
(** ** pages/supplier_risk.py: history panel, risk indicators, alerts *)

Module RiskIndicators.
Import Py Pandas SupplierRisk.

(** The options of the supplier select boxes:
    [supplier_performance["SupplierID"].tolist()] *)
Definition supplier_options (supplier_performance : list merged_row)
  : list string :=
  map (fun r => Supplier.SupplierID (fst r)) supplier_performance.

(** [frame.iloc[0]]: raises [IndexError] on an empty frame. *)
Definition iloc0 {A} (df : list A) : result A :=
  match df with
  | r :: _ => Ok r
  | [] => Raise "single positional indexer is out-of-bounds"
  end.

(** What the trend panel shows for the selected supplier: the latest
    assessment, or the warning that there is no history. *)
Inductive history_panel : Type :=
| LatestAssessment (latest : Performance.row)
| NoHistory.

Definition history (performance_data : list Performance.row)
           (selected_supplier_id : string) : result history_panel :=
  let supplier_history :=
    select_eq Performance.SupplierID selected_supplier_id performance_data in
  if (0 <? List.length supplier_history)%nat then
    let at_latest :=
      match latest_quarter performance_data with
      | Some q => select_eq Performance.Quarter q supplier_history
      | None => []
      end in
    latest <- iloc0 at_latest ;;
    Ok (LatestAssessment latest)
  else Ok NoHistory.

(** A row of [supplier_performance] with the four simulated indicators. *)
Record risk_row : Type := mkRisk {
  supplier         : merged_row;
  FinancialRisk    : Q;
  ESGRisk          : Q;
  ComplianceRisk   : Q;
  GeopoliticalRisk : Q
}.

Definition RiskScore (r : risk_row) : Q :=
  (FinancialRisk r * 0.4 + ESGRisk r * 0.3
   + ComplianceRisk r * 0.2 + GeopoliticalRisk r * 0.1)%Q.

(** [sort_values("RiskScore", ascending=False).head(10)] *)
Definition high_risk_suppliers (supplier_performance : list risk_row)
  : list risk_row :=
  head 10 (sort_values_desc RiskScore supplier_performance).

Definition DeliveryScore (r : risk_row) : option Q :=
  option_map Performance.DeliveryScore (snd (supplier r)).

Inductive alert : Type :=
| FinancialAlert
| ESGAlert
| PerformanceAlert.

(** The three independent [if] statements that fill [alerts]; a
    comparison with a missing score is false. *)
Definition alerts (selected_supplier : risk_row) : list alert :=
  ((if Qgtb (FinancialRisk selected_supplier) 7 then [FinancialAlert] else [])
   ++ (if Qgtb (ESGRisk selected_supplier) 7 then [ESGAlert] else [])
   ++ (match DeliveryScore selected_supplier with
       | Some d => if Qltb d 6 then [PerformanceAlert] else []
       | None => []
       end))%list.

End RiskIndicators.

(* ================================================================== *)
(** ** pages/supplier_relationship.py: contract alerts *)

Module Contracts.
Import Py Pandas.

(** A contract row.  [EndDate] is the day [strptime] reads from the
    column, counted in days from a fixed origin. *)
Record row : Type := mkRow {
  ContractID       : string;
  SupplierID       : string;
  Status           : string;
  EndDate          : Z;
  AutoRenewal      : bool;
  NoticePeriodDays : Z
}.

(** [datetime.now()]: the day and the time of day in microseconds. *)
Record datetime : Type := mkNow {
  today       : Z;
  microsecond : Z
}.

Definition day_us : Z := 86400000000.

(** [(end_date - current_date).days]: the whole days of the difference,
    rounded down. *)
Definition days_until_expiry (end_date : Z) (current_date : datetime) : Z :=
  ((end_date * day_us - (today current_date * day_us + microsecond current_date))
   / day_us)%Z.

(** The loop over the active contracts of the selected supplier; the
    lists hold the contracts with their [DaysRemaining]. *)
Definition contract_alerts (contract_data : list row)
           (selected_supplier_id : string) (current_date : datetime)
  : list (row * Z) * list (row * Z) :=
  let supplier_contracts := select_eq SupplierID selected_supplier_id contract_data in
  let active_contracts := select_eq Status "Active" supplier_contracts in
  let expiring_soon :=
    flat_map (fun contract =>
                let d := days_until_expiry (EndDate contract) current_date in
                if (d <=? 90)%Z then [(contract, d)] else [])
             active_contracts in
  let renewal_alert :=
    flat_map (fun contract =>
                let d := days_until_expiry (EndDate contract) current_date in
                if AutoRenewal contract && (d <=? NoticePeriodDays contract)%Z
                then [(contract, d)] else [])
             active_contracts in
  (expiring_soon, renewal_alert).

End Contracts.

(* ================================================================== *)
(** ** utils/mock_data.py: the status of a generated contract *)

Module MockData.

(** Instants in microseconds; [timedelta(days=n)]. *)
Definition timedelta_days (n : Z) : Z := (n * 86400000000)%Z.

(** The dates of a generated contract, from the draws
    [years_ago], [months_ago] and [duration_years]. *)
Definition start_date (current_date years_ago months_ago : Z) : Z :=
  (current_date - timedelta_days (365 * years_ago + 30 * months_ago))%Z.

Definition end_date (current_date years_ago months_ago duration_years : Z) : Z :=
  (start_date current_date years_ago months_ago
   + timedelta_days (365 * duration_years))%Z.

(** The [if / elif / else] that sets [status]. *)
Definition status_of (start_date end_date current_date : Z) : string :=
  if (end_date <? current_date)%Z then "Expired"
  else if (current_date <? start_date)%Z then "Future"
  else "Active".

Definition contract_status (current_date years_ago months_ago duration_years : Z)
  : string :=
  status_of (start_date current_date years_ago months_ago)
            (end_date current_date years_ago months_ago duration_years)
            current_date.

End MockData.

(* ================================================================== *)
(** ** Further sample inputs *)

Module MoreSamples.
Import Py Frame DataManager App.
Local Open Scope Q_scope.

(** A spend file in which two of three rows have no supplier. *)
Definition supplier_column : Series :=
  mkSeries "Supplier" object_ [Str "Acme"; Null; Null].

Definition amount_column : Series :=
  mkSeries "Amount" float64 [Num 10; Num 20; Num 30].

Definition nulls_frame : DataFrame :=
  [ supplier_column;
    mkSeries "Category" object_ [Str "HVAC"; Str "HVAC"; Str "HVAC"];
    mkSeries "SubCategory" object_ [Str "Pumps"; Str "Pumps"; Str "Pumps"];
    mkSeries "BusinessUnit" object_ [Str "Education"; Str "Education"; Str "Education"];
    mkSeries "Date" object_ [Str "2024-01-05"; Str "2024-01-06"; Str "2024-01-07"];
    amount_column ].

Definition extra_columns : DataFrame :=
  [ mkSeries "InvoiceID" object_ [Str "INV-10001"; Str "INV-10002"] ].

Definition nulls_file : UploadedFile := mkFile "nulls.csv" "".
Definition wide_file : UploadedFile := mkFile "wide.csv" "".

Definition read_csv (file : UploadedFile) : result DataFrame :=
  if String.eqb (name file) "nulls.csv" then Ok nulls_frame
  else if String.eqb (name file) "wide.csv"
       then Ok (Samples.spend_frame ++ extra_columns)%list
  else Ok Samples.spend_frame.

Definition read_excel (file : UploadedFile) : result DataFrame :=
  Raise "File is not a zip file".

(** A scored supplier with its four simulated indicators. *)
Definition risky : RiskIndicators.risk_row :=
  RiskIndicators.mkRisk
    (SampleRows.acme, Some (SampleRows.perf "S1" "2023-Q4" 8)) 8 6 4 2.

(** Contracts of supplier [S1], read at noon of day 100. *)
Definition contracts : list Contracts.row :=
  [ Contracts.mkRow "C00011" "S1" "Active" 130 true 60;
    Contracts.mkRow "C00012" "S1" "Active" 400 false 30;
    Contracts.mkRow "C00013" "S1" "Expired" 90 true 30;
    Contracts.mkRow "C00021" "S2" "Active" 120 true 90 ].

Definition noon : Contracts.datetime := Contracts.mkNow 100 43200000000.

End MoreSamples.

(* ================================================================== *)
(** ** Sums of binary64 values

    A float64 column holds binary64 values, each a rational number; an
    addition returns the binary64 value nearest to the exact result.  The
    amounts of the samples are in the normal range, where a value has 53
    significant bits. *)

Module Float64.
Local Open Scope Q_scope.

(** The nearest integer, a tie going to the even one. *)
Definition round_half_even (q : Q) : Z :=
  let n := Qnum q in
  let d := Zpos (Qden q) in
  let f := (n / d)%Z in
  match (2 * (n mod d) ?= d)%Z with
  | Lt => f
  | Gt => (f + 1)%Z
  | Eq => if Z.even f then f else (f + 1)%Z
  end.

Definition pow2 (e : Z) : Q :=
  match e with
  | Z0 => 1
  | Zpos p => inject_Z (2 ^ Zpos p)
  | Zneg p => 1 # (2 ^ p)
  end.

(** The binary exponent [k] of a non-zero [q]: [2^k <= |q| < 2^(k+1)]. *)
Definition exponent (q : Q) : Z :=
  let a := Qabs q in
  let k := (Z.log2 (Qnum a) - Z.log2 (Zpos (Qden a)))%Z in
  if Qle_bool (pow2 k) a then k else (k - 1)%Z.

(** The binary64 value nearest to [q]. *)
Definition round (q : Q) : Q :=
  if Qeq_bool q 0 then 0
  else
    let ulp := pow2 (exponent q - 52) in
    Qred (inject_Z (round_half_even (q / ulp)) * ulp).

Definition add (x y : Q) : Q := round (x + y).
Definition sub (x y : Q) : Q := round (x - y).

(** One rounded addition per value, in column order. *)
Definition sum_sequential (values : list Q) : Q := fold_left add values 0.

(** Compensated (Kahan) summation, the loop of a group sum:
    [y = val - compensation; t = sumx + y;
     compensation = t - sumx - y; sumx = t]. *)
Fixpoint kahan (sumx compensation : Q) (values : list Q) : Q :=
  match values with
  | [] => sumx
  | val :: rest =>
      let y := sub val compensation in
      let t := add sumx y in
      kahan t (sub (sub t sumx) y) rest
  end.

Definition sum_compensated (values : list Q) : Q := kahan 0 0 values.

(** The float64 column read from the decimals [19.99], [4.35] and [2.2]. *)
Definition invoice_amounts : list Q :=
  Eval vm_compute in map round [1999 # 100; 435 # 100; 22 # 10].

(** One supplier with these three invoices. *)
Definition three_invoices : list Spend.row :=
  map (SampleRows.spend "A" "HVAC" "Healthcare" 2024 1 5) invoice_amounts.

End Float64.

(* ================================================================== *)
(** * Proofs *)

Unset Implicit Arguments.

(** ** Booleans on rationals and strings *)

Section BoolFacts.
Import Py.

Lemma Qgtb_true (x y : Q) : Qgtb x y = true <-> (y < x)%Q.
Proof.
  unfold Qgtb. rewrite negb_true_iff. split; intro H.
  - apply Qnot_le_lt. intro Hle. apply Qle_bool_iff in Hle. congruence.
  - destruct (Qle_bool x y) eqn:E; [|reflexivity].
    apply Qle_bool_iff in E. exfalso. exact (Qlt_not_le _ _ H E).
Qed.

Lemma Qgtb_false (x y : Q) : Qgtb x y = false <-> (x <= y)%Q.
Proof.
  unfold Qgtb. rewrite negb_false_iff. apply Qle_bool_iff.
Qed.

Lemma Qltb_true (x y : Q) : Qltb x y = true <-> (x < y)%Q.
Proof. unfold Qltb. apply (Qgtb_true y x). Qed.

Lemma Qltb_false (x y : Q) : Qltb x y = false <-> (y <= x)%Q.
Proof. unfold Qltb. apply (Qgtb_false y x). Qed.

Lemma Qgeb_true (x y : Q) : Qgeb x y = true <-> (y <= x)%Q.
Proof. unfold Qgeb. apply Qle_bool_iff. Qed.

Lemma Qgeb_false (x y : Q) : Qgeb x y = false <-> (x < y)%Q.
Proof.
  unfold Qgeb. split; intro H.
  - apply Qnot_le_lt. intro Hle. apply Qle_bool_iff in Hle. congruence.
  - destruct (Qle_bool y x) eqn:E; [|reflexivity].
    apply Qle_bool_iff in E. exfalso. exact (Qlt_not_le _ _ H E).
Qed.

End BoolFacts.

(** ** The validator *)

Section ValidatorProofs.
Import Py Frame DataManager ValidatorSpec.

Variable read_csv   : UploadedFile -> result DataFrame.
Variable read_excel : UploadedFile -> result DataFrame.

Lemma has_column_In (df : DataFrame) (col : string) :
  has_column df col = true <-> In col (columns df).
Proof.
  unfold has_column. rewrite existsb_exists. split.
  - intros [c [Hin Heq]]. apply String.eqb_eq in Heq. now subst.
  - intro Hin. exists col. split; [assumption | apply String.eqb_refl].
Qed.

Lemma missing_columns_In (t : DataType) (df : DataFrame) (col : string) :
  In col (missing_columns t df) <->
  In col (required_columns t) /\ ~ In col (columns df).
Proof.
  unfold missing_columns. rewrite filter_In, negb_true_iff.
  rewrite <- has_column_In.
  destruct (has_column df col); intuition congruence.
Qed.

Lemma missing_columns_nil (t : DataType) (df : DataFrame) :
  missing_columns t df = [] <-> required_present t df.
Proof.
  unfold required_present. split.
  - intros Hnil col Hreq.
    destruct (has_column df col) eqn:E; [now apply has_column_In|].
    assert (Hin : In col (missing_columns t df)).
    { apply missing_columns_In. split; [assumption|].
      rewrite <- has_column_In. congruence. }
    rewrite Hnil in Hin. destruct Hin.
  - intro Hall. destruct (missing_columns t df) as [|c l] eqn:E; [reflexivity|].
    assert (Hin : In c (missing_columns t df)) by (rewrite E; now left).
    apply missing_columns_In in Hin. destruct Hin as [Hreq Hno].
    exfalso. apply Hno, Hall, Hreq.
Qed.

Lemma getitem_present (df : DataFrame) (col : string) :
  In col (columns df) -> exists s, getitem df col = Ok s.
Proof.
  unfold getitem, columns. intro Hin. apply in_map_iff in Hin.
  destruct Hin as [s [Hl Hs]].
  destruct (find (fun s0 => String.eqb col (label s0)) df) eqn:E.
  - eauto.
  - exfalso. apply (find_none _ _ E) in Hs. subst col.
    rewrite String.eqb_refl in Hs. discriminate.
Qed.

Lemma isnull_sum_zero (s : Series) :
  isnull_sum s = 0%nat <-> forall c, In c (values s) -> isnull c = false.
Proof.
  unfold isnull_sum. induction (values s) as [|c l IH]; simpl.
  - split; [intros _ c [] | reflexivity].
  - destruct (isnull c) eqn:E; simpl.
    + split; [discriminate|]. intro H. specialize (H c (or_introl eq_refl)).
      congruence.
    + rewrite IH. split.
      * intros H c' [<-|Hin]; auto.
      * intros H c' Hin. apply H. now right.
Qed.

(** The parser that [load_data] picks from the file name, seen from
    [validate_body]. *)
Lemma load_data_inferred (file : UploadedFile) (df : DataFrame) :
  load_data read_csv read_excel file None = Ok df ->
  (negb (endswith (name file) ".csv") && negb (endswith (name file) ".xlsx"))
    = false /\
  load_data read_csv read_excel file
    (Some (if endswith (name file) ".csv" then "csv" else "excel")) = Ok df.
Proof.
  unfold load_data. simpl.
  destruct (endswith (name file) ".csv"); simpl.
  - auto.
  - destruct (endswith (name file) ".xlsx"); simpl.
    + auto.
    + discriminate.
Qed.

Lemma load_data_raises (file : UploadedFile) (msg : string) :
  load_data read_csv read_excel file None = Raise msg ->
  is_valid (validate_data read_csv read_excel file SpendData) = false /\
  forall t, is_valid (validate_data read_csv read_excel file t) = false.
Proof.
  intro H.
  assert (Hall : forall t,
             is_valid (validate_data read_csv read_excel file t) = false).
  { intro t. revert H. unfold validate_data, validate_body, load_data. simpl.
    destruct (endswith (name file) ".csv"); simpl.
    - intros ->. reflexivity.
    - destruct (endswith (name file) ".xlsx"); simpl.
      + intros ->. reflexivity.
      + reflexivity. }
  split; [apply Hall | exact Hall].
Qed.

(** [validate_data] on a file that parses to [df], by cases on the
    checks. *)
Lemma validate_data_parsed (file : UploadedFile) (t : DataType) (df : DataFrame) :
  load_data read_csv read_excel file None = Ok df ->
  validate_data read_csv read_excel file t =
  match missing_columns t df with
  | _ :: _ => (false, missing_msg (missing_columns t df), None)
  | [] =>
      match validate_body read_csv read_excel file t with
      | Ok v => v
      | Raise msg => (false, "Error during validation: " ++ msg, None)
      end
  end.
Proof.
  intro H. destruct (load_data_inferred file df H) as [Hext Hload].
  unfold validate_data, validate_body. rewrite Hext, Hload. simpl.
  destruct (missing_columns t df); reflexivity.
Qed.

Lemma validate_data_schema (file : UploadedFile) (t : DataType) (df : DataFrame) :
  load_data read_csv read_excel file None = Ok df ->
  (schema_ok t df ->
   validate_data read_csv read_excel file t
   = (true, "Data validated successfully", Some df)) /\
  (~ schema_ok t df ->
   is_valid (validate_data read_csv read_excel file t) = false /\
   data_of (validate_data read_csv read_excel file t) = None).
Proof.
  intro H. destruct (load_data_inferred file df H) as [Hext Hload].
  unfold schema_ok, validate_data, validate_body. rewrite Hext, Hload. simpl.
  destruct (missing_columns t df) as [|c l] eqn:Hmiss.
  - apply missing_columns_nil in Hmiss.
    destruct t; try (split; [reflexivity | intros Hn; exfalso; apply Hn;
                                           split; [assumption | discriminate]]).
    destruct (getitem_present df "Amount") as [amount Ha].
    { apply Hmiss. simpl. tauto. }
    destruct (getitem_present df "Supplier") as [supplier Hs].
    { apply Hmiss. simpl. tauto. }
    rewrite Ha. simpl.
    destruct (is_numeric_dtype (dtype_ amount)) eqn:Hnum; simpl.
    + rewrite Hs. simpl.
      destruct (isnull_sum supplier) as [|n] eqn:Hnull; simpl.
      * split; [reflexivity|]. intro Hn. exfalso. apply Hn.
        split; [assumption|]. intros _. split.
        -- exists amount. auto.
        -- exists supplier. split; [assumption|]. now apply isnull_sum_zero.
      * split; [|auto]. intros [_ Hsp].
        destruct (Hsp eq_refl) as [_ [s' [Hs' Hnn]]].
        rewrite Hs in Hs'. injection Hs' as <-.
        apply isnull_sum_zero in Hnn. congruence.
    + split; [|auto]. intros [_ Hsp].
      destruct (Hsp eq_refl) as [[a' [Ha' Hn']] _].
      rewrite Ha in Ha'. injection Ha' as <-. congruence.
  - split; [|auto]. intros [Hreq _]. apply missing_columns_nil in Hreq.
    congruence.
Qed.


End ValidatorProofs.


(** ** The upload handler *)

Section UploadProofs.
Import Py Frame DataManager ValidatorSpec App.

Variable read_csv   : UploadedFile -> result DataFrame.
Variable read_excel : UploadedFile -> result DataFrame.

Lemma handle_upload_rejected (st : session_state) (file : UploadedFile)
      (t : DataType) :
  is_valid (validate_data read_csv read_excel file t) = false ->
  handle_upload read_csv read_excel st file t
  = (st, error (message (validate_data read_csv read_excel file t))).
Proof.
  unfold handle_upload, is_valid, message.
  destruct (validate_data read_csv read_excel file t) as [[b m] d]. simpl.
  intros ->. reflexivity.
Qed.

Lemma validate_data_unsupported (file : UploadedFile) (t : DataType) :
  endswith (name file) ".csv" = false ->
  endswith (name file) ".xlsx" = false ->
  validate_data read_csv read_excel file t = (false, unsupported_msg, None).
Proof.
  intros Hc Hx. unfold validate_data, validate_body. rewrite Hc, Hx.
  reflexivity.
Qed.

(** C6. Whenever [validate_data] reports failure, the upload handler
    returns the Data Store it was given, so the table held before the
    upload stays in place.  Every failure reason is such a failure: an
    unsupported extension, a parser that raises, a table that misses a
    required column or fails the Spend checks; and an exception raised
    inside the [try] block is turned into a failed validation, not
    propagated. *)
Theorem failed_validation_keeps_store
        (st : session_state) (file : UploadedFile) (t : DataType) :
  let v := validate_data read_csv read_excel file t in
  (is_valid v = false ->
   fst (handle_upload read_csv read_excel st file t) = st) /\
  (endswith (name file) ".csv" = false ->
   endswith (name file) ".xlsx" = false ->
   is_valid v = false) /\
  (forall msg, load_data read_csv read_excel file None = Raise msg ->
               is_valid v = false) /\
  (forall df, load_data read_csv read_excel file None = Ok df ->
              ~ schema_ok t df -> is_valid v = false) /\
  (forall msg, validate_body read_csv read_excel file t = Raise msg ->
               v = (false, "Error during validation: " ++ msg, None)).
Proof.
  intro v. subst v. repeat split.
  - intro Hv. rewrite (handle_upload_rejected st file t Hv). reflexivity.
  - intros Hc Hx. rewrite (validate_data_unsupported file t Hc Hx). reflexivity.
  - intros msg Hr.
    apply (proj2 (load_data_raises read_csv read_excel file msg Hr)).
  - intros df Hl Hns.
    apply (proj2 (validate_data_schema read_csv read_excel file t df Hl)), Hns.
  - intros msg Hr. unfold validate_data. rewrite Hr. reflexivity.
Qed.

End UploadProofs.

Lemma failed_validation_keeps_store_witness :
  DataManager.is_valid
    (DataManager.validate_data Samples.read_csv Samples.read_excel
                               Samples.broken_file DataManager.SpendData)
  = false /\
  fst (App.handle_upload Samples.read_csv Samples.read_excel Samples.store
                         Samples.broken_file DataManager.SpendData)
  = Samples.store.
Proof.
  split; [reflexivity|].
  apply (proj1 (failed_validation_keeps_store
                  Samples.read_csv Samples.read_excel Samples.store
                  Samples.broken_file DataManager.SpendData)).
  reflexivity.
Defined.

(** ** Concentration insight rules *)

Section InsightProofs.
Import Py CategoryIntelligence.
Local Open Scope Q_scope.

(** C7. The concentration rules on the top-3 concentration [c] and the
    number of suppliers [n]: above 75 the dependency-risk box; below 30
    with more than 7 suppliers the fragmentation box; from 50 to 75
    inclusive the balanced box; otherwise nothing.  The three conditions
    exclude one another and at most one box is shown. *)
Theorem concentration_rule_first_match (c : Q) (n : nat) :
  (75 < c -> concentration_rule c n = [HighConcentration]) /\
  (c < 30 -> (7 < n)%nat -> concentration_rule c n = [FragmentedBase]) /\
  (50 <= c -> c <= 75 -> concentration_rule c n = [BalancedConcentration]) /\
  (c <= 75 -> ~ (c < 30 /\ (7 < n)%nat) -> ~ (50 <= c /\ c <= 75) ->
   concentration_rule c n = []) /\
  (List.length (concentration_rule c n) <= 1)%nat /\
  ~ (75 < c /\ c < 30) /\
  ~ (75 < c /\ 50 <= c /\ c <= 75) /\
  ~ (c < 30 /\ 50 <= c /\ c <= 75).
Proof.
  unfold concentration_rule.
  destruct (Qgtb c 75) eqn:H75;
    [apply Qgtb_true in H75 | apply Qgtb_false in H75];
  (destruct (Qltb c 30) eqn:H30;
    [apply Qltb_true in H30 | apply Qltb_false in H30]);
  (destruct (Nat.ltb_spec 7 n) as [Hn|Hn]);
  (destruct (Qle_bool 50 c) eqn:H50;
    [apply Qle_bool_iff in H50
    | assert (Hlt50 : c < 50)
        by (apply Qnot_le_lt; intro Hc; apply Qle_bool_iff in Hc; congruence)]);
  (destruct (Qle_bool c 75) eqn:Hle;
    [apply Qle_bool_iff in Hle
    | assert (Hgt75 : 75 < c)
        by (apply Qnot_le_lt; intro Hc; apply Qle_bool_iff in Hc; congruence)]);
  simpl; repeat split; unfold not; intros;
  repeat match goal with H : _ /\ _ |- _ => destruct H end;
  try reflexivity; try lia; try (exfalso; lra); try (exfalso; lia); try tauto.
Qed.

End InsightProofs.

Lemma concentration_rule_first_match_witness :
  (20 < 30)%Q /\ (7 < 9)%nat /\
  CategoryIntelligence.concentration_rule 20 9
  = [CategoryIntelligence.FragmentedBase].
Proof.
  split; [reflexivity|]. split; [lia|].
  apply (proj1 (proj2 (concentration_rule_first_match 20 9)));
    [reflexivity | lia].
Defined.

(** ** Left merges *)

Section MergeProofs.
Import Pandas.
Variables L R : Type.
Variable on_l : L -> string.
Variable on_r : R -> string.

Lemma merge_left_In (left : list L) (right : list R) (l : L) (o : option R) :
  In (l, o) (merge_left on_l on_r left right) <->
  In l left /\
  match o with
  | Some r => In r right /\ on_r r = on_l l
  | None => forall r, In r right -> on_r r <> on_l l
  end.
Proof.
  unfold merge_left. rewrite in_flat_map. split.
  - intros [l0 [Hl0 Hin]].
    destruct (filter (fun r => String.eqb (on_r r) (on_l l0)) right)
      as [|m ms] eqn:E.
    + destruct Hin as [Heq|[]]. injection Heq as <- <-.
      split; [assumption|]. intros r Hr Hk.
      assert (Hf : In r (filter (fun r => String.eqb (on_r r) (on_l l0)) right)).
      { apply filter_In. split; [assumption|]. now apply String.eqb_eq. }
      rewrite E in Hf. destruct Hf.
    + apply in_map_iff in Hin. destruct Hin as [r [Heq Hr]].
      injection Heq as <- <-. rewrite <- E in Hr. apply filter_In in Hr.
      destruct Hr as [Hr Hk]. apply String.eqb_eq in Hk. auto.
  - intros [Hl Ho]. exists l. split; [assumption|].
    destruct (filter (fun r => String.eqb (on_r r) (on_l l)) right)
      as [|m ms] eqn:E.
    + destruct o as [r|].
      * destruct Ho as [Hr Hk].
        assert (Hf : In r (filter (fun r => String.eqb (on_r r) (on_l l)) right)).
        { apply filter_In. split; [assumption|]. now apply String.eqb_eq. }
        rewrite E in Hf. destruct Hf.
      * now left.
    + destruct o as [r|].
      * destruct Ho as [Hr Hk]. apply in_map_iff. exists r. split; [reflexivity|].
        rewrite <- E. apply filter_In. split; [assumption|].
        now apply String.eqb_eq.
      * exfalso.
        assert (Hf : In m (filter (fun r => String.eqb (on_r r) (on_l l)) right))
          by (rewrite E; now left).
        apply filter_In in Hf. destruct Hf as [Hm Hk].
        apply String.eqb_eq in Hk. exact (Ho m Hm Hk).
Qed.

End MergeProofs.

(** ** The score-range filter of the supplier-risk page *)

Section SupplierRiskProofs.
Import Py Pandas SupplierRisk.

(** C10. A supplier whose [SupplierID] has no performance row in the
    latest quarter comes out of the left merge with its [OverallScore]
    missing, and no row with that [SupplierID] passes the score-range
    filter, whatever the bounds of the range. *)
Theorem unscored_supplier_filtered_out
        (filtered_suppliers : list Supplier.row)
        (performance_data : list Performance.row)
        (min_score max_score : Q) (s : Supplier.row) :
  In s filtered_suppliers ->
  (forall p, In p (latest_performance performance_data) ->
             Performance.SupplierID p <> Supplier.SupplierID s) ->
  In (s, None)
     (merge_left Supplier.SupplierID Performance.SupplierID
                 filtered_suppliers (latest_performance performance_data)) /\
  (forall r,
      In r (merge_left Supplier.SupplierID Performance.SupplierID
                       filtered_suppliers (latest_performance performance_data)) ->
      Supplier.SupplierID (fst r) = Supplier.SupplierID s ->
      OverallScore r = None) /\
  (forall r,
      In r (supplier_performance filtered_suppliers performance_data
                                 (min_score, max_score)) ->
      Supplier.SupplierID (fst r) <> Supplier.SupplierID s).
Proof.
  intros Hs Hno.
  assert (Hmiss : forall r,
             In r (merge_left Supplier.SupplierID Performance.SupplierID
                     filtered_suppliers (latest_performance performance_data)) ->
             Supplier.SupplierID (fst r) = Supplier.SupplierID s ->
             OverallScore r = None).
  { intros [l o] Hin Hid. simpl in Hid. apply merge_left_In in Hin.
    destruct Hin as [_ Ho]. destruct o as [p|]; [|reflexivity].
    destruct Ho as [Hp Hk]. exfalso. apply (Hno p Hp). congruence. }
  split.
  { apply merge_left_In. split; [assumption|]. exact Hno. }
  split; [exact Hmiss|].
  intros r Hin Hid. unfold supplier_performance in Hin.
  apply filter_In in Hin. destruct Hin as [Hin Hrange].
  unfold score_in_range in Hrange. rewrite (Hmiss r Hin Hid) in Hrange.
  discriminate.
Qed.

End SupplierRiskProofs.

Lemma unscored_supplier_filtered_out_witness :
  In SampleRows.bolt [SampleRows.acme; SampleRows.bolt] /\
  (forall r,
      In r (SupplierRisk.supplier_performance
              [SampleRows.acme; SampleRows.bolt] SampleRows.performance
              (1, 10)%Q) ->
      Supplier.SupplierID (fst r) <> Supplier.SupplierID SampleRows.bolt).
Proof.
  split; [simpl; tauto|].
  refine (proj2 (proj2 (unscored_supplier_filtered_out
                          [SampleRows.acme; SampleRows.bolt]
                          SampleRows.performance 1%Q 10%Q SampleRows.bolt _ _))).
  - simpl. tauto.
  - intros p Hp. vm_compute in Hp.
    destruct Hp as [<-|[<-|[]]]; discriminate.
Defined.

(** ** Filters *)

Section HeapProofs.
Import Py Heap HeapSpec.
Variable frame : Type.

Lemma preserved_refl (h : heap frame) : preserved h h.
Proof. intros r f H. exact H. Qed.

Lemma preserved_trans (h1 h2 h3 : heap frame) :
  preserved h1 h2 -> preserved h2 h3 -> preserved h1 h3.
Proof. intros H12 H23 r f H. apply H23, H12, H. Qed.

Lemma preserved_alloc (h : heap frame) (g : frame) :
  preserved h (h ++ [g])%list.
Proof.
  intros r f H. unfold deref in *.
  rewrite nth_error_app1; [assumption|].
  apply nth_error_Some. congruence.
Qed.

Lemma deref_alloc (h : heap frame) (g : frame) :
  deref (List.length h) (h ++ [g])%list = Some g.
Proof.
  unfold deref. rewrite nth_error_app2 by lia.
  rewrite Nat.sub_diag. reflexivity.
Qed.

Lemma ret_yields (h : heap frame) (r : ref) (f : frame) :
  deref r h = Some f -> yields (ret r) h f.
Proof.
  intro H. exists r, h. split; [reflexivity|]. split; [assumption|].
  apply preserved_refl.
Qed.

Lemma index_by_yields (select : frame -> frame) (h : heap frame)
      (r : ref) (f : frame) :
  deref r h = Some f -> yields (index_by select r) h (select f).
Proof.
  intro H. exists (List.length h), (h ++ [select f])%list.
  split.
  - unfold index_by, bind, read, alloc. rewrite H. reflexivity.
  - split; [apply deref_alloc | apply preserved_alloc].
Qed.

Lemma copy_yields (h : heap frame) (r : ref) (f : frame) :
  deref r h = Some f -> yields (copy r) h f.
Proof.
  intro H. exists (List.length h), (h ++ [f])%list.
  split.
  - unfold copy, bind, read, alloc. rewrite H. reflexivity.
  - split; [apply deref_alloc | apply preserved_alloc].
Qed.

Lemma bind_yields (m : M frame ref) (k : ref -> M frame ref)
      (h : heap frame) (g g' : frame) :
  yields m h g ->
  (forall r h', deref r h' = Some g -> yields (k r) h' g') ->
  yields (bind m k) h g'.
Proof.
  intros [r [h1 [Hm [Hr Hp]]]] Hk.
  destruct (Hk r h1 Hr) as [r2 [h2 [Hk2 [Hr2 Hp2]]]].
  exists r2, h2. split.
  - unfold bind. rewrite Hm. exact Hk2.
  - split; [assumption | eapply preserved_trans; eassumption].
Qed.

End HeapProofs.

Section FilterProofs.
Import Py Pandas Heap HeapSpec FilterEngine.

Lemma filter_all {A} (p : A -> bool) (l : list A) :
  (forall x, p x = true) -> filter p l = l.
Proof.
  intro H. induction l as [|a l IH]; simpl; [reflexivity|].
  rewrite H, IH. reflexivity.
Qed.

Lemma filter_filter {A} (p q : A -> bool) (l : list A) :
  filter p (filter q l) = filter (fun x => q x && p x) l.
Proof.
  induction l as [|a l IH]; simpl; [reflexivity|].
  destruct (q a); simpl; [destruct (p a)|]; rewrite IH; reflexivity.
Qed.

Lemma filter_comm {A} (p q : A -> bool) (l : list A) :
  filter p (filter q l) = filter q (filter p l).
Proof.
  rewrite !filter_filter. apply filter_ext. intro x. apply andb_comm.
Qed.

Lemma select_eq_In {row} (col : row -> string) (value : string)
      (df : list row) (x : row) :
  In x (select_eq col value df) <-> In x df /\ col x = value.
Proof.
  unfold select_eq. rewrite filter_In, String.eqb_eq. reflexivity.
Qed.

Lemma filter_stage_yields {row} (col : row -> string) (all_label selected : string)
      (h : heap (list row)) (r : ref) (df : list row) :
  deref r h = Some df ->
  yields (filter_stage col all_label selected r) h
         (filter (keeps col all_label selected) df).
Proof.
  intro H. unfold filter_stage, keeps.
  destruct (String.eqb selected all_label) eqn:E; simpl.
  - rewrite filter_all by reflexivity. now apply ret_yields.
  - now apply (index_by_yields _ (select_eq col selected)).
Qed.

Lemma date_stage_yields (date_range : list Spend.date)
      (h : heap (list Spend.row)) (r : ref) (df : list Spend.row) :
  deref r h = Some df ->
  yields (CategoryIntelligence.date_stage date_range r) h
         (filter (CategoryIntelligence.keeps_dates date_range) df).
Proof.
  intro H. unfold CategoryIntelligence.date_stage,
             CategoryIntelligence.keeps_dates.
  destruct date_range as [|s [|e [|x l]]];
    try (rewrite filter_all by reflexivity; now apply ret_yields).
  now apply (index_by_yields
               _ (filter (CategoryIntelligence.in_date_range s e))).
Qed.

Lemma category_filters_yield (h : heap (list Spend.row)) (spend_data : ref)
      (df : list Spend.row) (selected_category selected_bu : string)
      (date_range : list Spend.date) :
  deref spend_data h = Some df ->
  yields (CategoryIntelligence.apply_filters
            spend_data selected_category selected_bu date_range) h
         (filter (fun r =>
                    keeps Spend.Category "All Categories" selected_category r
                    && keeps Spend.BusinessUnit "All Business Units" selected_bu r
                    && CategoryIntelligence.keeps_dates date_range r) df).
Proof.
  intro H. unfold CategoryIntelligence.apply_filters.
  eapply bind_yields; [apply copy_yields, H|]. intros r1 h1 H1.
  eapply bind_yields; [apply filter_stage_yields, H1|]. intros r2 h2 H2.
  eapply bind_yields; [apply filter_stage_yields, H2|]. intros r3 h3 H3.
  rewrite <- !filter_filter. apply date_stage_yields, H3.
Qed.

Lemma supplier_filters_yield (h : heap (list Supplier.row)) (supplier_data : ref)
      (df : list Supplier.row) (selected_category selected_country : string) :
  deref supplier_data h = Some df ->
  yields (SupplierRisk.apply_filters
            supplier_data selected_category selected_country) h
         (filter (fun r =>
                    keeps Supplier.Category "All Categories" selected_category r
                    && keeps Supplier.Country "All Countries" selected_country r)
                 df).
Proof.
  intro H. unfold SupplierRisk.apply_filters.
  eapply bind_yields; [apply copy_yields, H|]. intros r1 h1 H1.
  eapply bind_yields; [apply filter_stage_yields, H1|]. intros r2 h2 H2.
  rewrite <- filter_filter. apply filter_stage_yields, H2.
Qed.

(** C3. A filter step on any table and column: with the "All" label it
    returns the table as it is, row for row; with another value it
    returns exactly the rows whose column equals the value, in table
    order; two steps on two columns give the same rows in either order.
    The filter blocks of the category and supplier-risk pages keep the
    rows that pass all their steps.  Every step and both blocks leave the
    frames that existed before (the source table among them) unchanged. *)
Theorem filter_engine_contract :
  (forall row (col : row -> string) (all_label : string)
          (h : heap (list row)) (r : ref) (df : list row),
      deref r h = Some df ->
      yields (filter_stage col all_label all_label r) h df) /\
  (forall row (col : row -> string) (all_label value : string)
          (h : heap (list row)) (r : ref) (df : list row),
      deref r h = Some df -> value <> all_label ->
      yields (filter_stage col all_label value r) h
             (filter (fun x => String.eqb (col x) value) df) /\
      (forall x, In x (filter (fun x => String.eqb (col x) value) df) <->
                 In x df /\ col x = value)) /\
  (forall row (col1 col2 : row -> string) (all1 all2 v1 v2 : string)
          (h : heap (list row)) (r : ref) (df : list row),
      deref r h = Some df ->
      exists g,
        yields (r1 <~ filter_stage col1 all1 v1 r ;;
                filter_stage col2 all2 v2 r1) h g /\
        yields (r2 <~ filter_stage col2 all2 v2 r ;;
                filter_stage col1 all1 v1 r2) h g /\
        g = filter (fun x => keeps col1 all1 v1 x && keeps col2 all2 v2 x) df) /\
  (forall (h : heap (list Spend.row)) (spend_data : ref) (df : list Spend.row)
          (selected_category selected_bu : string)
          (date_range : list Spend.date),
      deref spend_data h = Some df ->
      yields (CategoryIntelligence.apply_filters
                spend_data selected_category selected_bu date_range) h
             (filter (fun r =>
                        keeps Spend.Category "All Categories" selected_category r
                        && keeps Spend.BusinessUnit "All Business Units"
                                 selected_bu r
                        && CategoryIntelligence.keeps_dates date_range r) df)) /\
  (forall (h : heap (list Supplier.row)) (supplier_data : ref)
          (df : list Supplier.row) (selected_category selected_country : string),
      deref supplier_data h = Some df ->
      yields (SupplierRisk.apply_filters
                supplier_data selected_category selected_country) h
             (filter (fun r =>
                        keeps Supplier.Category "All Categories"
                              selected_category r
                        && keeps Supplier.Country "All Countries"
                                 selected_country r) df)).
Proof.
  split; [|split; [|split; [|split]]].
  - intros row col all_label h r df H.
    pose proof (filter_stage_yields col all_label all_label h r df H) as Hy.
    rewrite filter_all in Hy; [exact Hy|].
    intro x. unfold keeps. rewrite String.eqb_refl. reflexivity.
  - intros row col all_label value h r df H Hne. split.
    + replace (filter (fun x => String.eqb (col x) value) df)
        with (filter (keeps col all_label value) df).
      * now apply filter_stage_yields.
      * apply filter_ext. intro x. unfold keeps.
        apply String.eqb_neq in Hne. rewrite Hne. reflexivity.
    + intro x. apply (select_eq_In col value df x).
  - intros row col1 col2 all1 all2 v1 v2 h r df H.
    exists (filter (fun x => keeps col1 all1 v1 x && keeps col2 all2 v2 x) df).
    split; [|split; [|reflexivity]].
    + eapply bind_yields; [apply filter_stage_yields, H|]. intros r1 h1 H1.
      rewrite <- filter_filter. apply filter_stage_yields, H1.
    + eapply bind_yields; [apply filter_stage_yields, H|]. intros r1 h1 H1.
      rewrite <- filter_filter, filter_comm. apply filter_stage_yields, H1.
  - apply category_filters_yield.
  - apply supplier_filters_yield.
Qed.

End FilterProofs.

(** ** Group keys *)

Section KeyProofs.
Import Py Pandas.
Variable K : Type.
Variable cmp : K -> K -> comparison.
Hypothesis cmp_eq : forall a b, cmp a b = Eq <-> a = b.

Lemma key_eqb_true (a b : K) : key_eqb cmp a b = true <-> a = b.
Proof.
  unfold key_eqb. rewrite <- cmp_eq.
  destruct (cmp a b); split; intro H; congruence.
Qed.

Lemma insert_key_In (x k : K) (ks : list K) :
  In x (insert_key cmp k ks) <-> x = k \/ In x ks.
Proof.
  induction ks as [|k' rest IH]; simpl.
  - intuition.
  - destruct (cmp k k') eqn:E; simpl.
    + apply cmp_eq in E. subst k'. intuition.
    + intuition.
    + rewrite IH. intuition.
Qed.

Lemma sorted_unique_In (x : K) (ks : list K) :
  In x (sorted_unique cmp ks) <-> In x ks.
Proof.
  unfold sorted_unique. induction ks as [|k rest IH]; simpl.
  - reflexivity.
  - rewrite insert_key_In, IH. intuition.
Qed.

Section Groups.
Variable row : Type.
Variable key : row -> option K.

Lemma has_key_true (k : K) (r : row) :
  has_key cmp key k r = true <-> key r = Some k.
Proof.
  unfold has_key. destruct (key r) as [k'|].
  - rewrite key_eqb_true. split; congruence.
  - split; discriminate.
Qed.

Lemma keys_of_In (k : K) (df : list row) :
  In k (keys_of key df) <-> exists r, In r df /\ key r = Some k.
Proof.
  unfold keys_of. rewrite in_flat_map. split.
  - intros [r [Hr Hk]]. exists r. split; [assumption|].
    destruct (key r) as [k'|]; [|destruct Hk].
    destruct Hk as [<-|[]]. reflexivity.
  - intros [r [Hr Hk]]. exists r. split; [assumption|].
    rewrite Hk. now left.
Qed.

Lemma groupby_In (k : K) (rs : list row) (df : list row) :
  In (k, rs) (groupby cmp key df) <->
  (exists r, In r df /\ key r = Some k) /\
  rs = filter (has_key cmp key k) df.
Proof.
  unfold groupby. rewrite in_map_iff. split.
  - intros [k' [Heq Hin]]. injection Heq as <- <-.
    apply sorted_unique_In, keys_of_In in Hin. auto.
  - intros [Hex ->]. exists k. split; [reflexivity|].
    now apply sorted_unique_In, keys_of_In.
Qed.

Lemma groupby_sum_In (value : row -> Q) (k : K) (t : Q) (df : list row) :
  In (k, t) (groupby_sum cmp key value df) <->
  (exists r, In r df /\ key r = Some k) /\
  t = Qsum (map value (filter (has_key cmp key k) df)).
Proof.
  unfold groupby_sum. rewrite in_map_iff. split.
  - intros [[k' rs] [Heq Hin]]. simpl in Heq. injection Heq as <- <-.
    apply groupby_In in Hin. destruct Hin as [Hex ->]. auto.
  - intros [Hex ->]. exists (k, filter (has_key cmp key k) df).
    split; [reflexivity|]. now apply groupby_In.
Qed.

Lemma groupby_mean_In (value : row -> Q) (k : K) (t : Q) (df : list row) :
  In (k, t) (groupby_mean cmp key value df) <->
  (exists r, In r df /\ key r = Some k) /\
  t = mean (map value (filter (has_key cmp key k) df)).
Proof.
  unfold groupby_mean. rewrite in_map_iff. split.
  - intros [[k' rs] [Heq Hin]]. simpl in Heq. injection Heq as <- <-.
    apply groupby_In in Hin. destruct Hin as [Hex ->]. auto.
  - intros [Hex ->]. exists (k, filter (has_key cmp key k) df).
    split; [reflexivity|]. now apply groupby_In.
Qed.

Lemma groupby_keys (df : list row) :
  map fst (groupby cmp key df) = sorted_unique cmp (keys_of key df).
Proof.
  unfold groupby. rewrite map_map. simpl. apply map_id.
Qed.

Lemma groupby_sum_keys (value : row -> Q) (df : list row) :
  map fst (groupby_sum cmp key value df) = sorted_unique cmp (keys_of key df).
Proof.
  unfold groupby_sum. rewrite map_map. simpl. apply groupby_keys.
Qed.

End Groups.

(** *** Keys in strictly ascending order *)

Hypothesis cmp_antisym : forall a b, cmp a b = CompOpp (cmp b a).
Hypothesis cmp_trans :
  forall a b c, cmp a b = Lt -> cmp b c = Lt -> cmp a c = Lt.

Lemma insert_key_sorted (k : K) (ks : list K) :
  StronglySorted (fun a b => cmp a b = Lt) ks ->
  StronglySorted (fun a b => cmp a b = Lt) (insert_key cmp k ks).
Proof.
  induction 1 as [|k' rest Hs IH Hall]; simpl.
  - constructor; constructor.
  - destruct (cmp k k') eqn:E.
    + constructor; assumption.
    + constructor; [constructor; assumption|].
      constructor; [assumption|].
      rewrite Forall_forall in *. intros x Hx. eapply cmp_trans; eauto.
    + constructor; [assumption|].
      rewrite Forall_forall in *. intros x Hx.
      apply insert_key_In in Hx. destruct Hx as [->|Hx]; [|auto].
      rewrite cmp_antisym, E. reflexivity.
Qed.

Lemma sorted_unique_sorted (ks : list K) :
  StronglySorted (fun a b => cmp a b = Lt) (sorted_unique cmp ks).
Proof.
  unfold sorted_unique. induction ks as [|k rest IH]; simpl.
  - constructor.
  - now apply insert_key_sorted.
Qed.

Lemma sorted_keys_NoDup (ks : list K) :
  StronglySorted (fun a b => cmp a b = Lt) ks -> NoDup ks.
Proof.
  induction 1 as [|k rest Hs IH Hall]; constructor; [|assumption].
  intro Hin. rewrite Forall_forall in Hall. specialize (Hall k Hin).
  assert (E : cmp k k = Eq) by now apply cmp_eq. congruence.
Qed.

Lemma sorted_unique_NoDup (ks : list K) : NoDup (sorted_unique cmp ks).
Proof. apply sorted_keys_NoDup, sorted_unique_sorted. Qed.

End KeyProofs.

(** *** String keys *)

Section StringKeys.

Lemma string_cmp_eq (a b : string) : String.compare a b = Eq <-> a = b.
Proof. exact (String_as_OT.cmp_eq a b). Qed.

Lemma string_cmp_antisym (a b : string) :
  String.compare a b = CompOpp (String.compare b a).
Proof. exact (String_as_OT.cmp_antisym a b). Qed.

Lemma string_cmp_trans (a b c : string) :
  String.compare a b = Lt -> String.compare b c = Lt -> String.compare a c = Lt.
Proof.
  intros H1 H2. apply String_as_OT.cmp_lt.
  apply String_as_OT.cmp_lt in H1. apply String_as_OT.cmp_lt in H2.
  exact (String_as_OT.lt_trans _ _ _ H1 H2).
Qed.

Lemma pair_cmp_eq {A B} (ca : A -> A -> comparison) (cb : B -> B -> comparison) :
  (forall a b, ca a b = Eq <-> a = b) ->
  (forall a b, cb a b = Eq <-> a = b) ->
  forall x y, Pandas.cmp_pair ca cb x y = Eq <-> x = y.
Proof.
  intros Ha Hb [a1 b1] [a2 b2]. unfold Pandas.cmp_pair. simpl.
  destruct (ca a1 a2) eqn:E.
  - apply Ha in E. subst a2. rewrite Hb. split; congruence.
  - split; [discriminate|]. intro H. injection H as <- <-.
    assert (E' : ca a1 a1 = Eq) by now apply Ha. congruence.
  - split; [discriminate|]. intro H. injection H as <- <-.
    assert (E' : ca a1 a1 = Eq) by now apply Ha. congruence.
Qed.

End StringKeys.

(** ** Sums over groups *)

Section SumProofs.
Import Py Pandas.
Local Open Scope Q_scope.




Variable K : Type.
Variable cmp : K -> K -> comparison.
Hypothesis cmp_eq : forall a b, cmp a b = Eq <-> a = b.



Variable row : Type.
Variable key : row -> option K.
Variable value : row -> Q.


Hypothesis cmp_antisym : forall a b, cmp a b = CompOpp (cmp b a).
Hypothesis cmp_trans :
  forall a b c, cmp a b = Lt -> cmp b c = Lt -> cmp a c = Lt.


End SumProofs.

(** ** Sorting by a measure, largest first *)

Section SortProofs.
Import Py Pandas OrderSpec.
Local Open Scope Q_scope.
Variable row : Type.
Variable measure : row -> Q.

Lemma insert_desc_perm (r : row) (l : list row) :
  Permutation (insert_desc measure r l) (r :: l).
Proof.
  induction l as [|r' rest IH]; simpl; [reflexivity|].
  destruct (Qle_bool (measure r') (measure r)); [reflexivity|].
  rewrite IH. apply perm_swap.
Qed.

Lemma sort_values_desc_perm (l : list row) :
  Permutation (sort_values_desc measure l) l.
Proof.
  unfold sort_values_desc. induction l as [|r l IH]; simpl; [reflexivity|].
  rewrite insert_desc_perm. now constructor.
Qed.

Lemma insert_desc_sorted (r : row) (l : list row) :
  descending measure l -> descending measure (insert_desc measure r l).
Proof.
  unfold descending. induction 1 as [|r' rest Hs IH Hall]; simpl.
  - constructor; constructor.
  - destruct (Qle_bool (measure r') (measure r)) eqn:E.
    + apply Qle_bool_iff in E.
      constructor; [constructor; assumption|].
      constructor; [assumption|].
      rewrite Forall_forall in *. intros x Hx.
      apply Qle_trans with (measure r'); auto.
    + constructor; [assumption|].
      rewrite Forall_forall in *. intros x Hx.
      apply (Permutation_in _ (insert_desc_perm r rest)) in Hx.
      destruct Hx as [<-|Hx]; [|auto].
      apply Qlt_le_weak, Qnot_le_lt. intro Hle.
      apply Qle_bool_iff in Hle. congruence.
Qed.

Lemma sort_values_desc_sorted (l : list row) :
  descending measure (sort_values_desc measure l).
Proof.
  unfold sort_values_desc. induction l as [|r l IH]; simpl.
  - constructor.
  - now apply insert_desc_sorted.
Qed.

End SortProofs.

(** ** Supplier concentration *)

Section ConcentrationProofs.
Import Py Pandas OrderSpec CategoryIntelligence.
Local Open Scope Q_scope.

Lemma has_key_string {row} (col : row -> string) (k : string) (r : row) :
  has_key String.compare (fun r => Some (col r)) k r = String.eqb (col r) k.
Proof.
  destruct (String.eqb (col r) k) eqn:E.
  - apply String.eqb_eq in E.
    apply (has_key_true string String.compare string_cmp_eq). congruence.
  - apply String.eqb_neq in E.
    destruct (has_key String.compare (fun r => Some (col r)) k r) eqn:H;
      [|reflexivity].
    apply (has_key_true string String.compare string_cmp_eq) in H.
    congruence.
Qed.

Lemma string_groupby_sum_In {row} (col : row -> string) (value : row -> Q)
      (df : list row) (k : string) (t : Q) :
  In (k, t) (groupby_sum String.compare (fun r => Some (col r)) value df) <->
  (exists r, In r df /\ col r = k) /\
  t = Qsum (map value (select_eq col k df)).
Proof.
  rewrite (groupby_sum_In string String.compare string_cmp_eq).
  unfold select_eq.
  rewrite (filter_ext _ _ (has_key_string col k)).
  split; intros [[r [Hr Hk]] Ht]; (split; [exists r; split; congruence|exact Ht]).
Qed.


Lemma string_groupby_sum_ascending {row} (col : row -> string) (value : row -> Q)
      (df : list row) :
  ascending_labels (groupby_sum String.compare (fun r => Some (col r)) value df).
Proof.
  unfold ascending_labels. rewrite groupby_sum_keys.
  apply (sorted_unique_sorted string String.compare string_cmp_eq
           string_cmp_antisym string_cmp_trans).
Qed.




End ConcentrationProofs.


(** ** Period change *)

Section TrendProofs.
Import Py Pandas OrderSpec CategoryIntelligence.
Local Open Scope Q_scope.

Lemma period_change_positive (first_month last_month : Q) :
  0 < first_month ->
  period_change first_month last_month
  == (last_month - first_month) / first_month * 100.
Proof.
  intro H. unfold period_change. apply Qgtb_true in H. rewrite H. reflexivity.
Qed.

Lemma period_change_guard (first_month last_month : Q) :
  first_month <= 0 -> period_change first_month last_month == 0.
Proof.
  intro H. unfold period_change. apply Qgtb_false in H. rewrite H. reflexivity.
Qed.

(** C4, as the code has it.  The monthly totals hold one entry per month
    present, the sum of its amounts, in ascending order of the month
    label.  With fewer than three months no change is computed.  With
    three or more, the change is taken from the first and the last
    monthly total: [(last - first) / first * 100] when the first is
    positive, and 0 when the first is zero or negative.  First 1000 and
    last 1200 give 20; first 0 and last 500 give 0. *)
Theorem change_pct_first_to_last (filtered_data : frame) :
  let months := monthly_totals filtered_data in
  (forall m t,
      In (m, t) months <->
      (exists r, In r filtered_data /\ Month r = m) /\
      t = Qsum (map Spend.Amount (select_eq Month m filtered_data))) /\
  ascending_labels months /\
  ((List.length months < 3)%nat -> change_pct filtered_data = None) /\
  ((3 <= List.length months)%nat ->
   change_pct filtered_data
   = Some (period_change (snd (hd (""%string, 0) months))
                         (snd (last months (""%string, 0))))) /\
  (forall first_month last_month,
      0 < first_month ->
      period_change first_month last_month
      == (last_month - first_month) / first_month * 100) /\
  (forall first_month last_month,
      first_month <= 0 -> period_change first_month last_month == 0) /\
  period_change 1000 1200 == 20 /\
  period_change 0 500 == 0.
Proof.
  cbv zeta.
  split; [intros m t; apply (string_groupby_sum_In Month Spend.Amount)|].
  split; [apply string_groupby_sum_ascending|].
  split.
  { intro H. unfold change_pct.
    destruct (Nat.leb_spec 3 (List.length (monthly_totals filtered_data)));
      [lia | reflexivity]. }
  split.
  { intro H. unfold change_pct.
    destruct (Nat.leb_spec 3 (List.length (monthly_totals filtered_data)));
      [reflexivity | lia]. }
  split; [exact period_change_positive|].
  split; [exact period_change_guard|].
  split; reflexivity.
Qed.

(** A first month that nets to a credit: the months total -100, 50 and
    100, the change computed is 0, and [(last - first) / first * 100] is
    -200.  And over two months totalling 1000 and 1200 no change is
    computed at all. *)
Lemma change_pct_negative_first :
  monthly_totals SampleRows.credit_first
  = [("2024-01"%string, -100); ("2024-02"%string, 50); ("2024-03"%string, 100)] /\
  change_pct SampleRows.credit_first = Some 0 /\
  ~ 0 == (100 - (-100)) / (-100) * 100 /\
  monthly_totals SampleRows.two_months
  = [("2024-01"%string, 1000); ("2024-02"%string, 1200)] /\
  change_pct SampleRows.two_months = None.
Proof.
  split; [reflexivity|].
  split; [reflexivity|].
  split; [intro H; vm_compute in H; discriminate|].
  split; reflexivity.
Qed.

End TrendProofs.

Lemma change_pct_first_to_last_witness :
  (3 <= List.length (CategoryIntelligence.monthly_totals
                       SampleRows.four_suppliers))%nat /\
  CategoryIntelligence.change_pct SampleRows.four_suppliers
  = Some (CategoryIntelligence.period_change 200 700).
Proof.
  split; [vm_compute; lia|].
  apply (proj1 (proj2 (proj2 (proj2
           (change_pct_first_to_last SampleRows.four_suppliers))))).
  vm_compute. lia.
Defined.

(** ** Shares of a list *)

Section PercentileProofs.
Import Py Pandas.
Local Open Scope Q_scope.

Lemma filter_keeps_all {A} (p : A -> bool) (l : list A) :
  (forall x, In x l -> p x = true) -> filter p l = l.
Proof.
  induction l as [|a l IH]; simpl; intro H; [reflexivity|].
  rewrite (H a (or_introl eq_refl)), IH; [reflexivity|].
  intros x Hx. apply H. now right.
Qed.

Lemma share_le_all (l : list Q) (bound : Q) :
  l <> [] -> (forall t, In t l -> t <= bound) -> share_le l bound * 100 == 100.
Proof.
  intros Hne Hall. unfold share_le.
  rewrite filter_keeps_all
    by (intros t Ht; apply Qle_bool_iff, Hall, Ht).
  assert (Hpos : (0 < List.length l)%nat)
    by (destruct l; [congruence | simpl; lia]).
  assert (Hnz : ~ inject_Z (Z.of_nat (List.length l)) == 0).
  { intro H. unfold Qeq in H. simpl in H. lia. }
  field. exact Hnz.
Qed.

End PercentileProofs.

(** ** The supplier performance chart *)

Section SupplierChartProofs.
Import Py Pandas Visualizations.
Local Open Scope Q_scope.

Lemma cmp_key_eq (a b : supplier_key) : cmp_key a b = Eq <-> a = b.
Proof.
  unfold cmp_key.
  apply pair_cmp_eq; [exact string_cmp_eq|].
  apply pair_cmp_eq; exact string_cmp_eq.
Qed.

Lemma filter_nil_existsb {A} (f : A -> bool) (l : list A) :
  filter f l = [] <-> existsb f l = false.
Proof.
  induction l as [|a l IH]; simpl; [tauto|].
  destruct (f a); simpl; [split; discriminate | exact IH].
Qed.

Lemma groupby_same_groups {K row} (cmp : K -> K -> comparison)
      (key : row -> option K) (df1 df2 : list row) :
  keys_of key df1 = keys_of key df2 ->
  (forall k, filter (has_key cmp key k) df1 = filter (has_key cmp key k) df2) ->
  groupby cmp key df1 = groupby cmp key df2.
Proof.
  intros Hk Hf. unfold groupby. rewrite Hk.
  apply map_ext. intro k. rewrite Hf. reflexivity.
Qed.

(** The supplier matches some row of the supplier table. *)
Lemma merged_data_cons (p : Performance.row) (performance_data : list Performance.row)
      (supplier_data : list Supplier.row) :
  merged_data (p :: performance_data) supplier_data
  = (merged_data [p] supplier_data ++ merged_data performance_data supplier_data)%list.
Proof.
  unfold merged_data, merge_left. simpl. rewrite app_nil_r. reflexivity.
Qed.

Lemma merged_data_unmatched (p : Performance.row) (supplier_data : list Supplier.row) :
  existsb (fun s => String.eqb (Supplier.SupplierID s) (Performance.SupplierID p))
          supplier_data = false ->
  merged_data [p] supplier_data = [(p, None)].
Proof.
  intro H. apply filter_nil_existsb in H.
  unfold merged_data, merge_left. simpl. rewrite H. reflexivity.
Qed.

Lemma keys_of_app {K row} (key : row -> option K) (l1 l2 : list row) :
  keys_of key (l1 ++ l2) = (keys_of key l1 ++ keys_of key l2)%list.
Proof. unfold keys_of. apply flat_map_app. Qed.

Lemma merged_keys_matched (performance_data : list Performance.row)
      (supplier_data : list Supplier.row) :
  keys_of group_key (merged_data performance_data supplier_data)
  = keys_of group_key
      (merged_data
         (filter (fun p =>
                    existsb (fun s => String.eqb (Supplier.SupplierID s)
                                                 (Performance.SupplierID p))
                            supplier_data)
                 performance_data)
         supplier_data).
Proof.
  induction performance_data as [|p l IH]; [reflexivity|].
  rewrite merged_data_cons, keys_of_app. simpl filter.
  destruct (existsb _ supplier_data) eqn:E.
  - rewrite (merged_data_cons p (filter _ l) supplier_data), keys_of_app, IH.
    reflexivity.
  - rewrite (merged_data_unmatched p supplier_data E), IH. reflexivity.
Qed.

Lemma merged_groups_matched (performance_data : list Performance.row)
      (supplier_data : list Supplier.row) (k : supplier_key) :
  filter (has_key cmp_key group_key k) (merged_data performance_data supplier_data)
  = filter (has_key cmp_key group_key k)
      (merged_data
         (filter (fun p =>
                    existsb (fun s => String.eqb (Supplier.SupplierID s)
                                                 (Performance.SupplierID p))
                            supplier_data)
                 performance_data)
         supplier_data).
Proof.
  induction performance_data as [|p l IH]; [reflexivity|].
  rewrite merged_data_cons, filter_app.
  change (filter ?f (p :: l)) with (if f p then p :: filter f l else filter f l).
  cbv beta.
  destruct (existsb _ supplier_data) eqn:E.
  - rewrite (merged_data_cons p (filter _ l) supplier_data), filter_app, IH.
    reflexivity.
  - rewrite (merged_data_unmatched p supplier_data E), IH. reflexivity.
Qed.

Lemma head_In {A} (n : nat) (l : list A) (x : A) :
  In x (head n l) -> In x l.
Proof.
  unfold head. revert l. induction n as [|n IH]; intros [|a l] H;
    simpl in H; try contradiction.
  destruct H as [->|H]; [now left | right; now apply IH].
Qed.

Lemma df_grouped_In (performance_data : list Performance.row)
      (supplier_data : list Supplier.row) (metric : Performance.row -> Q)
      (k : supplier_key) (v : Q) :
  In (k, v) (df_grouped performance_data supplier_data metric) ->
  exists p s,
    In p performance_data /\ In s supplier_data /\
    Supplier.SupplierID s = Performance.SupplierID p /\
    k = (Performance.SupplierID p, (Supplier.SupplierName s, Supplier.Category s)).
Proof.
  unfold df_grouped. intro H.
  apply (Permutation_in _ (sort_values_desc_perm _ snd _)) in H.
  apply (groupby_mean_In supplier_key cmp_key cmp_key_eq) in H.
  destruct H as [[[p o] [Hin Hk]] _].
  unfold merged_data in Hin. apply merge_left_In in Hin.
  destruct Hin as [Hp Ho]. unfold group_key in Hk. simpl in Hk.
  destruct o as [s|]; [|discriminate].
  destruct Ho as [Hs Hid]. injection Hk as <-.
  exists p, s. auto.
Qed.

(** C9. A performance row whose [SupplierID] is not in the supplier table
    comes out of the left merge without supplier columns and belongs to
    no group: the grouped averages and the chart are those of the
    performance table with such rows removed, and every row of the
    grouped table and every bar of the chart carries the [SupplierID] of
    a supplier of the supplier table. *)
Theorem unmatched_performance_dropped
        (performance_data : list Performance.row)
        (supplier_data : list Supplier.row) (metric : Performance.row -> Q) :
  let matched :=
    filter (fun p =>
              existsb (fun s => String.eqb (Supplier.SupplierID s)
                                           (Performance.SupplierID p))
                      supplier_data)
           performance_data in
  (forall p, In p performance_data ->
             (forall s, In s supplier_data ->
                        Supplier.SupplierID s <> Performance.SupplierID p) ->
             In (p, None) (merged_data performance_data supplier_data) /\
             group_key (p, None) = None) /\
  df_grouped performance_data supplier_data metric
  = df_grouped matched supplier_data metric /\
  create_supplier_chart performance_data supplier_data metric
  = create_supplier_chart matched supplier_data metric /\
  (forall k v,
      In (k, v) (df_grouped performance_data supplier_data metric) ->
      exists s, In s supplier_data /\ Supplier.SupplierID s = fst k) /\
  (forall k v,
      In (k, v) (bars (create_supplier_chart performance_data supplier_data
                                              metric)) ->
      exists s, In s supplier_data /\ Supplier.SupplierID s = fst k).
Proof.
  cbv zeta.
  assert (Hsame :
    df_grouped performance_data supplier_data metric
    = df_grouped
        (filter (fun p =>
                   existsb (fun s => String.eqb (Supplier.SupplierID s)
                                                (Performance.SupplierID p))
                           supplier_data)
                performance_data)
        supplier_data metric).
  { unfold df_grouped, groupby_mean. f_equal. f_equal.
    apply groupby_same_groups.
    - apply merged_keys_matched.
    - intro k. apply merged_groups_matched. }
  assert (Hrows : forall k v,
    In (k, v) (df_grouped performance_data supplier_data metric) ->
    exists s, In s supplier_data /\ Supplier.SupplierID s = fst k).
  { intros k v H. apply df_grouped_In in H.
    destruct H as [p [s [_ [Hs [Hid ->]]]]]. exists s. simpl. auto. }
  split.
  { intros p Hp Hno. split; [|reflexivity].
    unfold merged_data. apply merge_left_In. split; [assumption|].
    exact Hno. }
  split; [exact Hsame|].
  split.
  { unfold create_supplier_chart. rewrite <- Hsame. reflexivity. }
  split; [exact Hrows|].
  intros k v H. unfold create_supplier_chart, bars in H.
  apply head_In in H. exact (Hrows k v H).
Qed.

End SupplierChartProofs.

Lemma unmatched_performance_dropped_witness :
  In (SampleRows.perf "S9" "2023-Q4" 9) SampleRows.performance /\
  In (SampleRows.perf "S9" "2023-Q4" 9, None)
     (Visualizations.merged_data SampleRows.performance
                                 [SampleRows.acme; SampleRows.bolt]) /\
  Visualizations.group_key (SampleRows.perf "S9" "2023-Q4" 9, None) = None.
Proof.
  assert (Hin : In (SampleRows.perf "S9" "2023-Q4" 9) SampleRows.performance)
    by (simpl; tauto).
  split; [exact Hin|].
  apply (proj1 (unmatched_performance_dropped
                  SampleRows.performance [SampleRows.acme; SampleRows.bolt]
                  Performance.OverallScore)
               (SampleRows.perf "S9" "2023-Q4" 9) Hin).
  intros s [<-|[<-|[]]]; discriminate.
Defined.

(** ** The heatmap *)

Section UniqueProofs.
Import Pandas.

Lemma unique_In (l : list string) (a : string) : In a (unique l) <-> In a l.
Proof.
  induction l as [|x rest IH]; simpl; [reflexivity|].
  rewrite filter_In, IH, negb_true_iff, String.eqb_neq.
  destruct (string_dec x a) as [->|Hne]; [tauto|].
  split; [tauto|]. intros [H|H]; [tauto|]. right. split; [assumption|].
  congruence.
Qed.


End UniqueProofs.

Section MaxProofs.
Import Py Visualizations.
Local Open Scope Q_scope.








End MaxProofs.

Section HeatmapProofs.
Import Py Pandas Visualizations.
Local Open Scope Q_scope.

Variable row : Type.
Variables x_dim y_dim : row -> string.
Variable value : row -> Q.













End HeatmapProofs.


Lemma filter_engine_contract_witness :
  Heap.deref 0%nat [SampleRows.four_suppliers] = Some SampleRows.four_suppliers /\
  "HVAC"%string <> "All Categories"%string /\
  HeapSpec.yields
    (FilterEngine.filter_stage Spend.Category "All Categories" "HVAC" 0%nat)
    [SampleRows.four_suppliers]
    (filter (fun x => String.eqb (Spend.Category x) "HVAC")
            SampleRows.four_suppliers).
Proof.
  split; [reflexivity|]. split; [discriminate|].
  apply (proj1 (proj2 filter_engine_contract) Spend.row Spend.Category
               "All Categories"%string "HVAC"%string
               [SampleRows.four_suppliers] 0%nat SampleRows.four_suppliers).
  - reflexivity.
  - discriminate.
Defined.

(** * Further properties of the code *)

(** ** The validator and the upload handler *)

Section ValidatorMore.
Import Py Frame DataManager ValidatorSpec App.

Variable read_csv   : UploadedFile -> result DataFrame.
Variable read_excel : UploadedFile -> result DataFrame.

Lemma validate_data_supported_cases (file : UploadedFile) (t : DataType) :
  (negb (endswith (name file) ".csv") && negb (endswith (name file) ".xlsx"))
  = false ->
  (exists msg, validate_data read_csv read_excel file t
               = (false, "Error during validation: " ++ msg, None)) \/
  (exists df, load_data read_csv read_excel file None = Ok df).
Proof.
  intro Hext.
  destruct (load_data read_csv read_excel file None) as [df|msg] eqn:E.
  - right. eauto.
  - left. exists msg. revert E Hext.
    unfold validate_data, validate_body, load_data. simpl.
    destruct (endswith (name file) ".csv"); simpl.
    + intros -> _. reflexivity.
    + destruct (endswith (name file) ".xlsx"); simpl.
      * intros -> _. reflexivity.
      * discriminate.
Qed.

Lemma validate_data_valid_schema (file : UploadedFile) (t : DataType)
      (df : DataFrame) :
  load_data read_csv read_excel file None = Ok df ->
  is_valid (validate_data read_csv read_excel file t) = true ->
  schema_ok t df.
Proof.
  intros H Hv. destruct (load_data_inferred read_csv read_excel file df H)
    as [Hext Hload].
  revert Hv. unfold validate_data, validate_body. rewrite Hext, Hload. simpl.
  destruct (missing_columns t df) as [|c l] eqn:Hmiss; [|discriminate].
  apply missing_columns_nil in Hmiss.
  destruct t; try (intros _; split; [assumption | discriminate]).
  destruct (getitem df "Amount") as [amount|] eqn:Ha; simpl; [|discriminate].
  destruct (is_numeric_dtype (dtype_ amount)) eqn:Hnum; simpl; [|discriminate].
  destruct (getitem df "Supplier") as [supplier|] eqn:Hs; simpl; [|discriminate].
  destruct (isnull_sum supplier) as [|n] eqn:Hnull; simpl; [|discriminate].
  intros _. split; [assumption|]. intros _. split.
  - exists amount. auto.
  - exists supplier. split; [exact Hs|]. now apply isnull_sum_zero.
Qed.

Lemma validate_data_supported_other (file : UploadedFile) (t : DataType) :
  (negb (endswith (name file) ".csv") && negb (endswith (name file) ".xlsx"))
  = false ->
  validate_data read_csv read_excel file t <> (false, unsupported_msg, None).
Proof.
  intros Hext H.
  destruct (validate_data_supported_cases file t Hext) as [[msg Hm]|[df Hl]].
  { rewrite Hm in H. discriminate. }
  rewrite (validate_data_parsed read_csv read_excel file t df Hl) in H.
  destruct (load_data_inferred read_csv read_excel file df Hl) as [_ Hload].
  revert H. unfold validate_body. rewrite Hext, Hload. simpl.
  destruct (missing_columns t df); [|discriminate].
  destruct t; try discriminate.
  destruct (getitem df "Amount"); simpl; [|discriminate].
  destruct (is_numeric_dtype _); simpl; [|discriminate].
  destruct (getitem df "Supplier"); simpl; [|discriminate].
  destruct (0 <? isnull_sum _)%nat; discriminate.
Qed.

(** X1. The "unsupported file type" result is returned exactly for the
    file names that end neither in [.csv] nor in [.xlsx], whatever the
    parsers do and whatever data type is declared. *)
Theorem unsupported_iff_extension (file : UploadedFile) (t : DataType) :
  validate_data read_csv read_excel file t = (false, unsupported_msg, None)
  <-> (endswith (name file) ".csv" = false /\
       endswith (name file) ".xlsx" = false).
Proof.
  split.
  - intro H.
    destruct (endswith (name file) ".csv") eqn:Hc;
      [|destruct (endswith (name file) ".xlsx") eqn:Hx; [|auto]];
      exfalso; apply (validate_data_supported_other file t); try assumption;
      rewrite ?Hc, ?Hx; reflexivity.
  - intros [Hc Hx]. unfold validate_data, validate_body. rewrite Hc, Hx.
    reflexivity.
Qed.

End ValidatorMore.

Section ValidatorOrder.
Import Py Frame DataManager ValidatorSpec App.

Variable read_csv   : UploadedFile -> result DataFrame.
Variable read_excel : UploadedFile -> result DataFrame.

(** X2. The Spend checks run in a fixed order and stop at the first
    failure: with all required columns present, a non-numeric [Amount]
    column is reported whether or not suppliers are missing, and with a
    numeric [Amount] column the message gives the number of rows whose
    [Supplier] is null. *)
Theorem spend_checks_in_order
        (file : UploadedFile) (df : DataFrame) (amount supplier : Series) :
  load_data read_csv read_excel file None = Ok df ->
  required_present SpendData df ->
  getitem df "Amount" = Ok amount ->
  getitem df "Supplier" = Ok supplier ->
  (is_numeric_dtype (dtype_ amount) = false ->
   validate_data read_csv read_excel file SpendData
   = (false, "Amount column must contain numeric values", None)) /\
  (is_numeric_dtype (dtype_ amount) = true ->
   (0 < isnull_sum supplier)%nat ->
   validate_data read_csv read_excel file SpendData
   = (false,
      "Found " ++ str_of_nat (List.length (filter isnull (values supplier)))
        ++ " rows with missing supplier information",
      None)).
Proof.
  intros H Hreq Ha Hs.
  destruct (load_data_inferred read_csv read_excel file df H) as [Hext Hload].
  apply missing_columns_nil in Hreq.
  unfold validate_data, validate_body. rewrite Hext, Hload. simpl.
  rewrite Hreq, Ha. simpl. split.
  - intros ->. reflexivity.
  - intros -> Hnull. simpl. rewrite Hs. simpl.
    apply Nat.ltb_lt in Hnull. rewrite Hnull. reflexivity.
Qed.

Lemma find_app_l {A} (f : A -> bool) (l1 l2 : list A) (x : A) :
  find f l1 = Some x -> find f (l1 ++ l2)%list = Some x.
Proof.
  induction l1 as [|a l IH]; simpl; [discriminate|].
  destruct (f a); auto.
Qed.

Lemma getitem_app_l (df extra : DataFrame) (col : string) (s : Series) :
  getitem df col = Ok s -> getitem (df ++ extra)%list col = Ok s.
Proof.
  unfold getitem.
  destruct (find (fun s0 => String.eqb col (label s0)) df) as [s0|] eqn:E;
    [|discriminate].
  intro H. injection H as <-. rewrite (find_app_l _ df extra s0 E). reflexivity.
Qed.

Lemma schema_ok_app (t : DataType) (df extra : DataFrame) :
  schema_ok t df -> schema_ok t (df ++ extra)%list.
Proof.
  intros [Hreq Hsp]. split.
  - intros col Hc. unfold columns. rewrite map_app. apply in_or_app. left.
    apply Hreq, Hc.
  - intro Ht. destruct (Hsp Ht) as [[a [Ha Hn]] [s [Hs Hnn]]]. split.
    + exists a. split; [now apply getitem_app_l | assumption].
    + exists s. split; [now apply getitem_app_l | assumption].
Qed.

(** X3. Columns beyond the required ones never make a table invalid: if
    a file validates, a file whose table has the same columns followed by
    further columns validates too, and the table returned carries the
    further columns. *)
Theorem extra_columns_accepted
        (file file' : UploadedFile) (t : DataType) (df extra : DataFrame) :
  load_data read_csv read_excel file None = Ok df ->
  load_data read_csv read_excel file' None = Ok (df ++ extra)%list ->
  is_valid (validate_data read_csv read_excel file t) = true ->
  validate_data read_csv read_excel file' t
  = (true, "Data validated successfully", Some (df ++ extra)%list).
Proof.
  intros H H' Hv.
  apply (proj1 (validate_data_schema read_csv read_excel file' t _ H')).
  apply schema_ok_app.
  exact (validate_data_valid_schema read_csv read_excel file t df H Hv).
Qed.

Lemma handle_upload_accepted (st : session_state) (file : UploadedFile)
      (t : DataType) (df : DataFrame) :
  validate_data read_csv read_excel file t
  = (true, "Data validated successfully", Some df) ->
  handle_upload read_csv read_excel st file t
  = (setitem st (data_type_map t) (Some df),
     success (data_type_label t ++ " loaded successfully!")).
Proof.
  intro H. unfold handle_upload. rewrite H. reflexivity.
Qed.

Lemma validate_data_accepted (file : UploadedFile) (t : DataType) :
  is_valid (validate_data read_csv read_excel file t) = true ->
  exists df, validate_data read_csv read_excel file t
             = (true, "Data validated successfully", Some df).
Proof.
  intro Hv.
  destruct (load_data read_csv read_excel file None) as [df|msg] eqn:Hl.
  - exists df.
    apply (proj1 (validate_data_schema read_csv read_excel file t df Hl)).
    exact (validate_data_valid_schema read_csv read_excel file t df Hl Hv).
  - pose proof (proj2 (load_data_raises read_csv read_excel file msg Hl) t).
    congruence.
Qed.

(** The store after an upload, whatever its outcome. *)
Lemma handle_upload_store (file : UploadedFile) (t : DataType) :
  (exists df, forall st,
      fst (handle_upload read_csv read_excel st file t)
      = setitem st (data_type_map t) (Some df)) \/
  (forall st, fst (handle_upload read_csv read_excel st file t) = st).
Proof.
  destruct (is_valid (validate_data read_csv read_excel file t)) eqn:Hv.
  - left. destruct (validate_data_accepted file t Hv) as [df Hval].
    exists df. intro st. rewrite (handle_upload_accepted st file t df Hval).
    reflexivity.
  - right. intro st.
    rewrite (handle_upload_rejected read_csv read_excel st file t Hv).
    reflexivity.
Qed.

Lemma setitem_get_same (st : session_state) (t : DataType)
      (data : option DataFrame) :
  getitem_state (setitem st (data_type_map t) data) (data_type_map t) = data.
Proof. destruct t; reflexivity. Qed.

Lemma setitem_get_other (st : session_state) (t t' : DataType)
      (data : option DataFrame) :
  t' <> t ->
  getitem_state (setitem st (data_type_map t) data) (data_type_map t')
  = getitem_state st (data_type_map t').
Proof. destruct t, t'; intro H; try reflexivity; congruence. Qed.

Lemma setitem_overwrite (st : session_state) (t : DataType)
      (d1 d2 : option DataFrame) :
  setitem (setitem st (data_type_map t) d1) (data_type_map t) d2
  = setitem st (data_type_map t) d2.
Proof. destruct t; reflexivity. Qed.

Lemma setitem_swap (st : session_state) (t1 t2 : DataType)
      (d1 d2 : option DataFrame) :
  t1 <> t2 ->
  setitem (setitem st (data_type_map t1) d1) (data_type_map t2) d2
  = setitem (setitem st (data_type_map t2) d2) (data_type_map t1) d1.
Proof. destruct t1, t2; intro H; try reflexivity; congruence. Qed.

(** X4. An accepted upload replaces the table of the declared data type
    by the parsed table and leaves the three other tables of the store
    as they were. *)
Theorem accepted_upload_replaces_one_table
        (st : session_state) (file : UploadedFile) (t : DataType)
        (df : DataFrame) :
  load_data read_csv read_excel file None = Ok df ->
  schema_ok t df ->
  let st' := fst (handle_upload read_csv read_excel st file t) in
  getitem_state st' (data_type_map t) = Some df /\
  (forall t', t' <> t ->
              getitem_state st' (data_type_map t')
              = getitem_state st (data_type_map t')).
Proof.
  intros Hl Hok st'. subst st'.
  rewrite (handle_upload_accepted st file t df
             (proj1 (validate_data_schema read_csv read_excel file t df Hl) Hok)).
  simpl. split.
  - apply setitem_get_same.
  - intros t' Hne. now apply setitem_get_other.
Qed.

(** X5. Uploads compose as assignments: a second upload for the same
    data type, when accepted, leaves the store as if the first had never
    happened; and two uploads for different data types give the same
    store in either order, accepted or not. *)
Theorem uploads_compose
        (st : session_state) (f1 f2 : UploadedFile) (t1 t2 : DataType) :
  (is_valid (validate_data read_csv read_excel f2 t1) = true ->
   fst (handle_upload read_csv read_excel
          (fst (handle_upload read_csv read_excel st f1 t1)) f2 t1)
   = fst (handle_upload read_csv read_excel st f2 t1)) /\
  (t1 <> t2 ->
   fst (handle_upload read_csv read_excel
          (fst (handle_upload read_csv read_excel st f1 t1)) f2 t2)
   = fst (handle_upload read_csv read_excel
            (fst (handle_upload read_csv read_excel st f2 t2)) f1 t1)).
Proof.
  split.
  - intro Hv.
    destruct (validate_data_accepted f2 t1 Hv) as [d2 Hval].
    rewrite !(handle_upload_accepted _ f2 t1 d2 Hval). simpl.
    destruct (handle_upload_store f1 t1) as [[d1 E1]|E1];
      rewrite E1; [apply setitem_overwrite | reflexivity].
  - intro Hne.
    destruct (handle_upload_store f1 t1) as [[d1 E1]|E1];
      destruct (handle_upload_store f2 t2) as [[d2 E2]|E2];
      rewrite ?E1, ?E2; try reflexivity.
    now apply setitem_swap.
Qed.

End ValidatorOrder.

(** ** The category page: opportunity and trend boxes *)

Section OverviewProofs.
Import Py Pandas OrderSpec CategoryIntelligence CategoryOverview.
Local Open Scope Q_scope.

Lemma ratio_lt_5 (n s : nat) :
  (0 < s)%nat ->
  Qltb (inject_Z (Z.of_nat n) / inject_Z (Z.of_nat s)) 5 = true
  <-> (n < 5 * s)%nat.
Proof.
  intro Hs.
  assert (Hpos : 0 < inject_Z (Z.of_nat s)).
  { change 0 with (inject_Z 0). rewrite <- Zlt_Qlt. lia. }
  rewrite Qltb_true. split; intro H.
  - destruct (Nat.lt_ge_cases n (5 * s)) as [|Hge]; [assumption|]. exfalso.
    apply (Qlt_not_le _ _ H). apply Qle_shift_div_l; [assumption|].
    change 5 with (inject_Z 5). rewrite <- inject_Z_mult, <- Zle_Qle. lia.
  - apply Qlt_shift_div_r; [assumption|].
    change 5 with (inject_Z 5). rewrite <- inject_Z_mult, <- Zlt_Qlt. lia.
Qed.

Lemma supplier_count_positive (filtered_data : frame) :
  filtered_data <> [] -> (0 < supplier_count filtered_data)%nat.
Proof.
  unfold supplier_count. destruct filtered_data as [|r l]; [congruence|].
  intros _. simpl. lia.
Qed.

(** X6. On a non-empty filtered table the opportunity box is chosen by
    the first rule that matches: supplier consolidation when there are
    fewer than five transactions per supplier; otherwise the supply-risk
    box when fewer than three suppliers carry more than 500,000 of
    spend; otherwise the small-orders box when the average transaction
    is below 1,000 over more than 100 transactions; otherwise none. *)
Theorem opportunity_alert_first_match (filtered_data : frame) :
  filtered_data <> [] ->
  let n := transaction_count filtered_data in
  let s := supplier_count filtered_data in
  ((n < 5 * s)%nat -> opportunity_alert filtered_data = [SupplierConsolidation]) /\
  ((5 * s <= n)%nat -> (s < 3)%nat -> 500000 < total_spend filtered_data ->
   opportunity_alert filtered_data = [SupplyRisk]) /\
  ((5 * s <= n)%nat ->
   ~ ((s < 3)%nat /\ 500000 < total_spend filtered_data) ->
   avg_transaction filtered_data < 1000 -> (100 < n)%nat ->
   opportunity_alert filtered_data = [SmallOrders]) /\
  ((5 * s <= n)%nat ->
   ~ ((s < 3)%nat /\ 500000 < total_spend filtered_data) ->
   ~ (avg_transaction filtered_data < 1000 /\ (100 < n)%nat) ->
   opportunity_alert filtered_data = []).
Proof.
  intros Hne n s.
  assert (Hs : (0 < s)%nat) by now apply supplier_count_positive.
  assert (Hn : (0 < n)%nat).
  { subst n. unfold transaction_count.
    destruct filtered_data; [congruence | simpl; lia]. }
  unfold opportunity_alert. fold n. fold s.
  apply Nat.ltb_lt in Hs as Hs'. apply Nat.ltb_lt in Hn as Hn'.
  rewrite Hs', Hn'. simpl.
  pose proof (ratio_lt_5 n s Hs) as Hr.
  destruct (Qltb (inject_Z (Z.of_nat n) / inject_Z (Z.of_nat s)) 5) eqn:E5.
  - assert (Hlt : (n < 5 * s)%nat) by now apply Hr.
    repeat split; intros; try reflexivity; exfalso; lia.
  - assert (Hge : (5 * s <= n)%nat).
    { destruct (Nat.lt_ge_cases n (5 * s)) as [Hlt|]; [|assumption].
      apply Hr in Hlt. congruence. }
    destruct (Nat.ltb_spec s 3) as [H3|H3];
    (destruct (Qgtb (total_spend filtered_data) 500000) eqn:Et;
      [apply Qgtb_true in Et | apply Qgtb_false in Et]);
    (destruct (Qltb (avg_transaction filtered_data) 1000) eqn:Ea;
      [apply Qltb_true in Ea | apply Qltb_false in Ea]);
    (destruct (Nat.ltb_spec 100 n) as [H100|H100]);
    simpl; repeat split; intros; try reflexivity;
    try (exfalso; lia); try (exfalso; lra); try (exfalso; tauto).
Qed.

Lemma Qabs_lt_5 (c : Q) : Qabs c < 5 <-> -5 < c /\ c < 5.
Proof.
  rewrite Qabs_Qlt_condition. split; intros [H1 H2]; split; lra.
Qed.

(** X7. The trend box partitions the change percentage: stable strictly
    between -5 and 5, significant growth above 20, moderate growth from
    5 to 20, major reduction below -20 and reduction from -20 to -5;
    growth boxes are shown as info or warning, reductions as success. *)
Theorem classify_trend_ranges (c : Q) :
  (-5 < c /\ c < 5 <-> classify_trend c = (StablePattern, "info"%string)) /\
  (20 < c <-> classify_trend c = (SignificantGrowth, "warning"%string)) /\
  (5 <= c /\ c <= 20 <-> classify_trend c = (ModerateGrowth, "info"%string)) /\
  (c < -20 <-> classify_trend c = (MajorReduction, "success"%string)) /\
  (-20 <= c /\ c <= -5
   <-> classify_trend c = (SpendingReduction, "success"%string)).
Proof.
  unfold classify_trend.
  destruct (Qltb (Qabs c) 5) eqn:Ha;
    [apply Qltb_true, Qabs_lt_5 in Ha
    | assert (Hna : ~ (-5 < c /\ c < 5))
        by (intro H; apply Qabs_lt_5, Qltb_true in H; congruence)].
  - repeat split; intros; try reflexivity; try discriminate;
      try tauto; try (exfalso; lra);
      repeat match goal with H : _ /\ _ |- _ => destruct H end; lra.
  - destruct (Qgtb c 20) eqn:H20;
      [apply Qgtb_true in H20 | apply Qgtb_false in H20];
    (destruct (Qgtb c 0) eqn:H0;
      [apply Qgtb_true in H0 | apply Qgtb_false in H0]);
    (destruct (Qltb c (-20)) eqn:Hm;
      [apply Qltb_true in Hm | apply Qltb_false in Hm]);
    repeat split; intros; try reflexivity; try discriminate;
      repeat match goal with H : _ /\ _ |- _ => destruct H end;
      try lra; try (exfalso; lra);
      try (exfalso; apply Hna; split; lra).
Qed.

(** X8. When at least three months are present and the first month's
    total is zero or negative, the change is set to 0 and the page shows
    the stable-pattern box, whatever the last month's total is. *)
Theorem zero_guard_shows_stable (filtered_data : frame) :
  (3 <= List.length (monthly_totals filtered_data))%nat ->
  snd (hd (""%string, 0) (monthly_totals filtered_data)) <= 0 ->
  change_pct filtered_data = Some 0 /\
  trend_box filtered_data = Some (StablePattern, "info"%string).
Proof.
  intros H3 Hfirst. unfold trend_box, change_pct.
  apply Nat.leb_le in H3. rewrite H3. unfold period_change.
  apply Qgtb_false in Hfirst. rewrite Hfirst. simpl. split; reflexivity.
Qed.

End OverviewProofs.

(** ** The category page: concentration *)

Section ConcentrationMore.
Import Py Pandas OrderSpec CategoryIntelligence CategoryOverview.
Local Open Scope Q_scope.


Lemma unique_NoDup (l : list string) : NoDup (unique l).
Proof.
  induction l as [|x rest IH]; simpl; constructor.
  - rewrite filter_In, negb_true_iff, String.eqb_neq. tauto.
  - now apply NoDup_filter.
Qed.

Lemma keys_of_total {K row} (f : row -> K) (df : list row) :
  keys_of (fun r => Some (f r)) df = map f df.
Proof.
  unfold keys_of. induction df as [|r l IH]; simpl; [reflexivity|].
  rewrite IH. reflexivity.
Qed.

(** A group-by on a string column has one group per distinct value. *)
Lemma string_groupby_sum_length {row} (col : row -> string) (value : row -> Q)
      (df : list row) :
  List.length (groupby_sum String.compare (fun r => Some (col r)) value df)
  = List.length (unique (map col df)).
Proof.
  rewrite <- (length_map fst), groupby_sum_keys, keys_of_total.
  apply Permutation_length, NoDup_Permutation.
  - apply (sorted_unique_NoDup string String.compare string_cmp_eq
             string_cmp_antisym string_cmp_trans).
  - apply unique_NoDup.
  - intro x.
    rewrite (sorted_unique_In string String.compare string_cmp_eq), unique_In.
    reflexivity.
Qed.

Lemma supplier_totals_length (filtered_data : frame) :
  List.length (supplier_totals filtered_data) = supplier_count filtered_data.
Proof. apply string_groupby_sum_length. Qed.

Lemma ranked_length (filtered_data : frame) :
  List.length (sort_values_desc snd (supplier_totals filtered_data))
  = supplier_count filtered_data.
Proof.
  rewrite (Permutation_length (sort_values_desc_perm _ snd _)).
  apply supplier_totals_length.
Qed.

(** X11. The supplier table of the chart is cut to ten rows, and the
    concentration rules give the same box as they would on the number of
    distinct suppliers of the filtered data. *)
Theorem concentration_insight_true_count (filtered_data : frame) :
  List.length (suppliers_df filtered_data)
  = Nat.min 10 (supplier_count filtered_data) /\
  concentration_insight filtered_data
  = concentration_rule (top3_concentration filtered_data)
                       (supplier_count filtered_data).
Proof.
  assert (Hlen : List.length (suppliers_df filtered_data)
                 = Nat.min 10 (supplier_count filtered_data)).
  { unfold suppliers_df, head. rewrite length_firstn, ranked_length.
    reflexivity. }
  split; [exact Hlen|].
  unfold concentration_insight, concentration_rule. rewrite Hlen.
  replace (7 <? Nat.min 10 (supplier_count filtered_data))%nat
    with (7 <? supplier_count filtered_data)%nat; [reflexivity|].
  destruct (Nat.ltb_spec 7 (supplier_count filtered_data));
    destruct (Nat.ltb_spec 7 (Nat.min 10 (supplier_count filtered_data)));
    try reflexivity; lia.
Qed.

End ConcentrationMore.

(** ** The category page: the date filter *)

Section DateProofs.
Import Py Pandas Heap HeapSpec FilterEngine CategoryIntelligence CategoryOverview.

Lemma date_leb_spec (a b : Spend.date) :
  Spend.date_leb a b = true <->
  (Spend.year a < Spend.year b
   \/ (Spend.year a = Spend.year b
       /\ (Spend.month a < Spend.month b
           \/ (Spend.month a = Spend.month b
               /\ Spend.day a <= Spend.day b))))%nat.
Proof.
  unfold Spend.date_leb.
  rewrite !orb_true_iff, !andb_true_iff, !orb_true_iff, !andb_true_iff.
  rewrite !Nat.ltb_lt, !Nat.eqb_eq, Nat.leb_le. reflexivity.
Qed.

Lemma date_leb_refl (a : Spend.date) : Spend.date_leb a a = true.
Proof. apply date_leb_spec. lia. Qed.

Lemma date_leb_trans (a b c : Spend.date) :
  Spend.date_leb a b = true -> Spend.date_leb b c = true ->
  Spend.date_leb a c = true.
Proof. rewrite !date_leb_spec. lia. Qed.

Lemma date_leb_total (a b : Spend.date) :
  Spend.date_leb a b = false -> Spend.date_leb b a = true.
Proof.
  intro H. apply date_leb_spec.
  assert (Hn : ~ (Spend.date_leb a b = true)) by congruence.
  rewrite date_leb_spec in Hn. lia.
Qed.

Lemma date_leb_antisym (a b : Spend.date) :
  Spend.date_leb a b = true -> Spend.date_leb b a = true -> a = b.
Proof.
  rewrite !date_leb_spec. destruct a, b. simpl. intros H1 H2.
  f_equal; lia.
Qed.

Lemma fold_date_min (rest : list Spend.date) (d : Spend.date) :
  Spend.date_leb (fold_left date_min rest d) d = true /\
  forall x, In x rest -> Spend.date_leb (fold_left date_min rest d) x = true.
Proof.
  revert d. induction rest as [|a rest IH]; intro d; simpl.
  - split; [apply date_leb_refl | intros x []].
  - destruct (IH (date_min d a)) as [H1 H2].
    assert (Hd : Spend.date_leb (date_min d a) d = true).
    { unfold date_min. destruct (Spend.date_leb d a) eqn:E;
        [apply date_leb_refl | now apply date_leb_total]. }
    assert (Ha : Spend.date_leb (date_min d a) a = true).
    { unfold date_min. destruct (Spend.date_leb d a) eqn:E;
        [assumption | apply date_leb_refl]. }
    split.
    + eapply date_leb_trans; eassumption.
    + intros x [<-|Hx]; [eapply date_leb_trans; eassumption | auto].
Qed.

Lemma fold_date_max (rest : list Spend.date) (d : Spend.date) :
  Spend.date_leb d (fold_left date_max rest d) = true /\
  forall x, In x rest -> Spend.date_leb x (fold_left date_max rest d) = true.
Proof.
  revert d. induction rest as [|a rest IH]; intro d; simpl.
  - split; [apply date_leb_refl | intros x []].
  - destruct (IH (date_max d a)) as [H1 H2].
    assert (Hd : Spend.date_leb d (date_max d a) = true).
    { unfold date_max. destruct (Spend.date_leb d a) eqn:E;
        [assumption | apply date_leb_refl]. }
    assert (Ha : Spend.date_leb a (date_max d a) = true).
    { unfold date_max. destruct (Spend.date_leb d a) eqn:E;
        [apply date_leb_refl | now apply date_leb_total]. }
    split.
    + eapply date_leb_trans; eassumption.
    + intros x [<-|Hx]; [eapply date_leb_trans; eassumption | auto].
Qed.

Lemma default_range_keeps (spend_data : frame) (r : Spend.row) :
  In r spend_data -> keeps_dates (default_date_range spend_data) r = true.
Proof.
  unfold default_date_range, min_date, max_date. intro Hin.
  assert (Hd : In (Spend.Date r) (map Spend.Date spend_data))
    by now apply in_map.
  destruct (map Spend.Date spend_data) as [|d rest]; [destruct Hd|].
  simpl. unfold in_date_range.
  destruct (fold_date_min rest d) as [Hm1 Hm2].
  destruct (fold_date_max rest d) as [Hx1 Hx2].
  destruct Hd as [<-|Hd].
  - rewrite Hm1, Hx1. reflexivity.
  - rewrite (Hm2 _ Hd), (Hx2 _ Hd). reflexivity.
Qed.

(** X12. With the selections the page starts with (all categories, all
    business units, the date range from the earliest to the latest date
    of the table) the filtered view holds every row of the spend table,
    in table order, and the spend table itself is left as it was. *)
Theorem default_view_is_whole_table
        (h : heap (list Spend.row)) (spend_data : ref) (df : list Spend.row) :
  deref spend_data h = Some df ->
  yields (apply_filters spend_data "All Categories" "All Business Units"
                        (default_date_range df)) h df.
Proof.
  intro H.
  pose proof (category_filters_yield h spend_data df "All Categories"
                "All Business Units" (default_date_range df) H) as Hy.
  rewrite filter_keeps_all in Hy; [exact Hy|].
  intros r Hr. unfold keeps. simpl.
  now apply default_range_keeps.
Qed.

(** X13. A date range whose two ends are the same day keeps exactly the
    rows of that day, and a range that is not a pair of dates (the
    second date not yet picked) filters nothing. *)
Theorem date_range_edges (d : Spend.date) (df : list Spend.row) :
  (forall r, In r (filter (keeps_dates [d; d]) df)
             <-> In r df /\ Spend.Date r = d) /\
  filter (keeps_dates [d]) df = df /\
  filter (keeps_dates []) df = df /\
  (forall a b c rest, filter (keeps_dates (a :: b :: c :: rest)) df = df).
Proof.
  split.
  { intro r. rewrite filter_In. unfold keeps_dates, in_date_range.
    rewrite andb_true_iff. split.
    - intros [Hin [H1 H2]]. split; [assumption|].
      now apply date_leb_antisym.
    - intros [Hin <-]. rewrite date_leb_refl. auto. }
  repeat split; intros; apply filter_all; reflexivity.
Qed.

End DateProofs.

(** ** Ranked charts *)

Section TopProofs.
Import Py Pandas OrderSpec.
Local Open Scope Q_scope.
Variable row : Type.
Variable measure : row -> Q.

Lemma descending_app (l1 l2 : list row) :
  descending measure (l1 ++ l2)%list ->
  descending measure l1 /\
  forall a b, In a l1 -> In b l2 -> measure b <= measure a.
Proof.
  unfold descending. induction l1 as [|x l1 IH]; simpl; intro H.
  - split; [constructor | intros a b []].
  - inversion H as [|? ? Hs Hall]; subst.
    destruct (IH Hs) as [H1 H2]. rewrite Forall_forall in Hall. split.
    + constructor; [assumption|]. apply Forall_forall. intros y Hy.
      apply Hall. apply in_or_app. now left.
    + intros a b [<-|Ha] Hb; [|auto].
      apply Hall. apply in_or_app. now right.
Qed.

(** The first [n] rows of a ranking: still ranked, and no row left out
    has a larger measure than a row kept. *)
Lemma head_of_ranking (n : nat) (l : list row) :
  descending measure l ->
  (List.length (head n l) <= n)%nat /\
  descending measure (head n l) /\
  (forall x, In x (head n l) -> In x l) /\
  (forall x, In x l ->
             In x (head n l) \/
             forall b, In b (head n l) -> measure x <= measure b).
Proof.
  intro Hd. unfold head.
  rewrite <- (firstn_skipn n l) in Hd.
  destruct (descending_app _ _ Hd) as [H1 H2].
  split; [rewrite length_firstn; lia|].
  split; [exact H1|].
  split.
  { intros x Hx. rewrite <- (firstn_skipn n l). apply in_or_app. now left. }
  intros x Hx. rewrite <- (firstn_skipn n l) in Hx.
  apply in_app_or in Hx. destruct Hx as [Hx|Hx]; [now left|].
  right. intros b Hb. now apply H2.
Qed.

End TopProofs.

Section ChartProofs.
Import Py Pandas OrderSpec Charts.
Local Open Scope Q_scope.


End ChartProofs.

Section UniqueKeyProofs.
Import Py Pandas.

Lemma filter_none {A} (p : A -> bool) (l : list A) :
  (forall x, In x l -> p x = false) -> filter p l = [].
Proof.
  induction l as [|a l IH]; simpl; intro H; [reflexivity|].
  rewrite (H a (or_introl eq_refl)). apply IH. intros x Hx. apply H. now right.
Qed.

Lemma filter_key_unique {A} (f : A -> string) (l : list A) (x : A) :
  NoDup (map f l) -> In x l ->
  filter (fun y => String.eqb (f y) (f x)) l = [x].
Proof.
  induction l as [|a l IH]; simpl; intros Hnd Hin; [destruct Hin|].
  inversion Hnd as [|? ? Hno Hnd']; subst.
  destruct Hin as [->|Hin].
  - rewrite String.eqb_refl. f_equal. apply filter_none.
    intros y Hy. apply String.eqb_neq. intro E. apply Hno. rewrite <- E.
    now apply in_map.
  - destruct (String.eqb (f a) (f x)) eqn:E.
    + apply String.eqb_eq in E. exfalso. apply Hno. rewrite E.
      now apply in_map.
    + now apply IH.
Qed.

Lemma filter_key_at_most_one {A} (f : A -> string) (l : list A) (k : string) :
  NoDup (map f l) ->
  filter (fun y => String.eqb (f y) k) l = [] \/
  exists x, filter (fun y => String.eqb (f y) k) l = [x].
Proof.
  intro Hnd.
  destruct (filter (fun y => String.eqb (f y) k) l) as [|x rest] eqn:E;
    [now left|].
  right. exists x.
  assert (Hx : In x (filter (fun y => String.eqb (f y) k) l))
    by (rewrite E; now left).
  apply filter_In in Hx. destruct Hx as [Hin Hk]. apply String.eqb_eq in Hk.
  subst k. rewrite (filter_key_unique f l x Hnd Hin) in E.
  congruence.
Qed.

(** A left merge against a table with distinct keys keeps the left table
    row for row. *)
Lemma merge_left_unique_keys {L R} (on_l : L -> string) (on_r : R -> string)
      (left : list L) (right : list R) :
  NoDup (map on_r right) ->
  map fst (merge_left on_l on_r left right) = left.
Proof.
  intro Hnd. unfold merge_left.
  induction left as [|l rest IH]; [reflexivity|].
  cbn [flat_map]. rewrite map_app, IH.
  destruct (filter_key_at_most_one on_r right (on_l l) Hnd) as [E|[x E]];
    rewrite E; reflexivity.
Qed.

Lemma string_groupby_mean_In {row} (col : row -> string) (value : row -> Q)
      (df : list row) (k : string) (t : Q) :
  In (k, t) (groupby_mean String.compare (fun r => Some (col r)) value df) <->
  (exists r, In r df /\ col r = k) /\
  t = mean (map value (select_eq col k df)).
Proof.
  rewrite (groupby_mean_In string String.compare string_cmp_eq).
  unfold select_eq.
  rewrite (filter_ext _ _ (has_key_string col k)).
  split; intros [[r [Hr Hk]] Ht]; (split; [exists r; split; congruence|exact Ht]).
Qed.

Lemma string_groupby_mean_keys {row} (col : row -> string) (value : row -> Q)
      (df : list row) :
  NoDup (map fst (groupby_mean String.compare (fun r => Some (col r)) value df)).
Proof.
  unfold groupby_mean. rewrite map_map. simpl. rewrite groupby_keys.
  apply (sorted_unique_NoDup string String.compare string_cmp_eq
           string_cmp_antisym string_cmp_trans).
Qed.

End UniqueKeyProofs.

Section SupplierMapProofs.
Import Py Pandas Charts.
Local Open Scope Q_scope.

(** X15. The supplier map with performance data has exactly one marker
    per row of the supplier table, in table order; a supplier with
    performance rows carries the mean of its [OverallScore]s and a
    supplier without any carries no score.  Without performance data
    the markers are the supplier rows, coloured by category. *)
Theorem supplier_map_one_marker_each
        (supplier_data : list Supplier.row)
        (performance_data : list Performance.row) :
  let m := create_supplier_map supplier_data (Some performance_data) in
  map fst (markers m) = supplier_data /\
  (forall s o,
      In (s, o) (markers m) ->
      match o with
      | Some (id, v) =>
          id = Supplier.SupplierID s /\
          (exists p, In p performance_data /\
                     Performance.SupplierID p = Supplier.SupplierID s) /\
          v = mean (map Performance.OverallScore
                        (select_eq Performance.SupplierID
                                   (Supplier.SupplierID s) performance_data))
      | None =>
          forall p, In p performance_data ->
                    Performance.SupplierID p <> Supplier.SupplierID s
      end) /\
  create_supplier_map supplier_data None
  = mkMap (map (fun s => (s, None)) supplier_data) "Category".
Proof.
  cbv zeta. simpl. split.
  { apply merge_left_unique_keys. apply string_groupby_mean_keys. }
  split; [|reflexivity].
  intros s o Hin. apply merge_left_In in Hin. destruct Hin as [Hs Ho].
  destruct o as [[id v]|].
  - destruct Ho as [Hin Hid]. simpl in Hid. subst id.
    unfold perf_avg in Hin. apply string_groupby_mean_In in Hin.
    destruct Hin as [Hex Hv]. auto.
  - intros p Hp Hid.
    apply (Ho (Performance.SupplierID p,
               mean (map Performance.OverallScore
                         (select_eq Performance.SupplierID
                                    (Performance.SupplierID p)
                                    performance_data)))).
    + unfold perf_avg. apply string_groupby_mean_In. split; [|reflexivity].
      exists p. auto.
    + exact Hid.
Qed.

End SupplierMapProofs.

Section SupplierChartMore.
Import Py Pandas OrderSpec Visualizations.
Local Open Scope Q_scope.

Lemma merged_single_matched (p : Performance.row) (s0 : Supplier.row)
      (supplier_data : list Supplier.row) :
  NoDup (map Supplier.SupplierID supplier_data) -> In s0 supplier_data ->
  Performance.SupplierID p = Supplier.SupplierID s0 ->
  merged_data [p] supplier_data = [(p, Some s0)].
Proof.
  intros Hnd Hin Hid. unfold merged_data, merge_left. simpl.
  rewrite Hid, (filter_key_unique Supplier.SupplierID supplier_data s0 Hnd Hin).
  reflexivity.
Qed.

Lemma merged_single_other (p : Performance.row) (k : supplier_key)
      (supplier_data : list Supplier.row) :
  Performance.SupplierID p <> fst k ->
  filter (has_key cmp_key group_key k) (merged_data [p] supplier_data) = [].
Proof.
  intro Hne. apply filter_none. intros [p' o] Hin.
  unfold merged_data in Hin. apply merge_left_In in Hin.
  destruct Hin as [[<-|[]] _].
  destruct (has_key cmp_key group_key k (p, o)) eqn:E; [|reflexivity].
  apply (has_key_true supplier_key cmp_key cmp_key_eq) in E.
  unfold group_key in E. simpl in E. destruct o; [|discriminate].
  injection E as <-. simpl in Hne. congruence.
Qed.

Lemma group_rows_of_supplier (performance_data : list Performance.row)
      (supplier_data : list Supplier.row) (s0 : Supplier.row) :
  NoDup (map Supplier.SupplierID supplier_data) -> In s0 supplier_data ->
  filter (has_key cmp_key group_key
            (Supplier.SupplierID s0,
             (Supplier.SupplierName s0, Supplier.Category s0)))
         (merged_data performance_data supplier_data)
  = map (fun p => (p, Some s0))
        (select_eq Performance.SupplierID (Supplier.SupplierID s0)
                   performance_data).
Proof.
  intros Hnd Hin. unfold select_eq.
  induction performance_data as [|p l IH]; [reflexivity|].
  rewrite merged_data_cons, filter_app, IH. simpl filter at 3.
  destruct (String.eqb (Performance.SupplierID p) (Supplier.SupplierID s0))
    eqn:E.
  - apply String.eqb_eq in E.
    rewrite (merged_single_matched p s0 supplier_data Hnd Hin E). simpl.
    assert (Hk : has_key cmp_key group_key
                   (Supplier.SupplierID s0,
                    (Supplier.SupplierName s0, Supplier.Category s0))
                   (p, Some s0) = true).
    { apply (has_key_true supplier_key cmp_key cmp_key_eq).
      unfold group_key. simpl. rewrite E. reflexivity. }
    rewrite Hk. reflexivity.
  - apply String.eqb_neq in E.
    rewrite (merged_single_other p _ supplier_data); [reflexivity|].
    simpl. exact E.
Qed.

(** X16. The supplier chart shows at most fifteen bars, ranked largest
    first, and no supplier left out has a larger average than a supplier
    shown.  When the supplier table has distinct [SupplierID]s, each bar
    is the mean of the metric over the performance rows of its supplier. *)
Theorem supplier_chart_top15
        (performance_data : list Performance.row)
        (supplier_data : list Supplier.row) (metric : Performance.row -> Q) :
  let chart := create_supplier_chart performance_data supplier_data metric in
  let all := df_grouped performance_data supplier_data metric in
  (List.length (bars chart) <= 15)%nat /\
  descending snd (bars chart) /\
  (forall g, In g all ->
             In g (bars chart) \/
             forall b, In b (bars chart) -> snd g <= snd b) /\
  (NoDup (map Supplier.SupplierID supplier_data) ->
   forall k v, In (k, v) (bars chart) ->
               v = mean (map metric
                             (select_eq Performance.SupplierID (fst k)
                                        performance_data))).
Proof.
  cbv zeta. unfold create_supplier_chart. simpl.
  destruct (head_of_ranking _ snd 15
              (df_grouped performance_data supplier_data metric)
              (sort_values_desc_sorted _ snd _))
    as [Hlen [Hd [Hin Hdom]]].
  split; [exact Hlen|]. split; [exact Hd|]. split; [exact Hdom|].
  intros Hnd k v Hb. apply Hin in Hb. unfold df_grouped in Hb.
  apply (Permutation_in _ (sort_values_desc_perm _ snd _)) in Hb.
  apply (groupby_mean_In supplier_key cmp_key cmp_key_eq) in Hb.
  destruct Hb as [[[p o] [Hm Hk]] ->].
  unfold merged_data in Hm. apply merge_left_In in Hm.
  destruct Hm as [Hp Ho]. unfold group_key in Hk. simpl in Hk.
  destruct o as [s0|]; [|discriminate]. destruct Ho as [Hs Hid].
  injection Hk as <-. simpl fst. rewrite <- Hid.
  rewrite (group_rows_of_supplier performance_data supplier_data s0 Hnd Hs).
  rewrite map_map. reflexivity.
Qed.

End SupplierChartMore.

(** ** The heatmap grid *)

Section HeatmapTotals.
Import Py Pandas Visualizations.
Local Open Scope Q_scope.

Variable row : Type.
Variables x_dim y_dim : row -> string.
Variable value : row -> Q.




End HeatmapTotals.

(** ** The supplier-risk page *)

Section LatestQuarterProofs.
Import Py Pandas SupplierRisk RiskIndicators.

Lemma string_leb_iff (a b : string) :
  String.leb a b = true <-> String.compare a b = Lt \/ a = b.
Proof.
  unfold String.leb. rewrite <- string_cmp_eq.
  destruct (String.compare a b); split; intro H;
    try tauto; try discriminate; destruct H; discriminate.
Qed.

Lemma string_leb_refl (a : string) : String.leb a a = true.
Proof. apply string_leb_iff. now right. Qed.

Lemma string_leb_trans (a b c : string) :
  String.leb a b = true -> String.leb b c = true -> String.leb a c = true.
Proof.
  rewrite !string_leb_iff. intros [H1| ->] [H2| ->]; auto.
  left. eapply string_cmp_trans; eassumption.
Qed.

Lemma str_max_ge (a b : string) :
  String.leb a (str_max a b) = true /\ String.leb b (str_max a b) = true.
Proof.
  unfold str_max. destruct (String.leb a b) eqn:E.
  - split; [assumption | apply string_leb_refl].
  - split; [apply string_leb_refl|].
    destruct (String.leb_total a b) as [H|H]; congruence.
Qed.

Lemma fold_str_max (rest : list string) (q : string) :
  String.leb q (fold_left str_max rest q) = true /\
  (forall x, In x rest -> String.leb x (fold_left str_max rest q) = true) /\
  In (fold_left str_max rest q) (q :: rest).
Proof.
  revert q. induction rest as [|a rest IH]; intro q; simpl.
  - split; [apply string_leb_refl|]. split; [intros x [] | now left].
  - destruct (IH (str_max q a)) as [H1 [H2 H3]].
    destruct (str_max_ge q a) as [Hq Ha]. split.
    + eapply string_leb_trans; eassumption.
    + split.
      * intros x [<-|Hx]; [eapply string_leb_trans; eassumption | auto].
      * destruct H3 as [H3|H3]; [|auto].
        rewrite <- H3. unfold str_max. destruct (String.leb q a); auto.
Qed.

(** X18. The latest quarter is the largest quarter label of the
    performance table, and the latest performance rows are exactly the
    rows with that label; they are empty only when the performance table
    is empty. *)
Theorem latest_quarter_is_maximum (performance_data : list Performance.row) :
  (performance_data = [] ->
   latest_quarter performance_data = None /\
   latest_performance performance_data = []) /\
  (performance_data <> [] ->
   exists q,
     latest_quarter performance_data = Some q /\
     (exists p, In p performance_data /\ Performance.Quarter p = q) /\
     (forall p, In p performance_data ->
                String.leb (Performance.Quarter p) q = true) /\
     latest_performance performance_data <> [] /\
     (forall p, In p (latest_performance performance_data)
                <-> In p performance_data /\ Performance.Quarter p = q)).
Proof.
  split.
  { intros ->. split; reflexivity. }
  intro Hne. destruct performance_data as [|p0 rest]; [congruence|].
  set (q := fold_left str_max (map Performance.Quarter rest)
                      (Performance.Quarter p0)).
  destruct (fold_str_max (map Performance.Quarter rest)
              (Performance.Quarter p0)) as [H1 [H2 H3]].
  fold q in H1, H2, H3.
  assert (Hex : exists p, In p (p0 :: rest) /\ Performance.Quarter p = q).
  { destruct H3 as [H3|H3].
    - exists p0. split; [now left | exact H3].
    - apply in_map_iff in H3. destruct H3 as [p [Hp Hin]].
      exists p. split; [now right | exact Hp]. }
  assert (Hlp : forall p, In p (latest_performance (p0 :: rest))
                          <-> In p (p0 :: rest) /\ Performance.Quarter p = q).
  { intro p. unfold latest_performance, latest_quarter. fold q.
    apply (select_eq_In Performance.Quarter q (p0 :: rest) p). }
  exists q. split; [reflexivity|]. split; [exact Hex|]. split.
  { intros p [<-|Hp]; [exact H1|]. apply H2. now apply in_map. }
  split; [|exact Hlp].
  destruct Hex as [p Hp]. apply Hlp in Hp. intro E. rewrite E in Hp.
  destruct Hp.
Qed.

(** X19. Every supplier offered by the select box of the page (a
    supplier that passed the score filter) has a performance row in the
    latest quarter, so the history panel finds its latest assessment and
    the lookup of its first row does not fail. *)
Theorem selected_supplier_has_latest_assessment
        (filtered_suppliers : list Supplier.row)
        (performance_data : list Performance.row)
        (score_range : Q * Q) (selected_supplier_id : string) :
  In selected_supplier_id
     (supplier_options
        (supplier_performance filtered_suppliers performance_data score_range)) ->
  exists p,
    history performance_data selected_supplier_id = Ok (LatestAssessment p) /\
    In p performance_data /\
    Performance.SupplierID p = selected_supplier_id /\
    latest_quarter performance_data = Some (Performance.Quarter p).
Proof.
  intro Hsel. unfold supplier_options in Hsel. apply in_map_iff in Hsel.
  destruct Hsel as [[s o] [Hid Hin]]. simpl in Hid.
  destruct score_range as [lo hi]. unfold supplier_performance in Hin.
  apply filter_In in Hin. destruct Hin as [Hin Hrange].
  apply merge_left_In in Hin. destruct Hin as [_ Ho].
  unfold score_in_range, OverallScore in Hrange. simpl in Hrange.
  destruct o as [p0|]; [|discriminate]. destruct Ho as [Hp0 Hk].
  unfold latest_performance in Hp0.
  destruct (latest_quarter performance_data) as [q|] eqn:Eq; [|destruct Hp0].
  apply (select_eq_In Performance.Quarter q performance_data p0) in Hp0.
  destruct Hp0 as [Hp0 Hq].
  assert (Hh : In p0 (select_eq Performance.SupplierID selected_supplier_id
                                performance_data)).
  { apply select_eq_In. split; [assumption | congruence]. }
  assert (Hl : In p0 (select_eq Performance.Quarter q
                        (select_eq Performance.SupplierID selected_supplier_id
                                   performance_data))).
  { apply select_eq_In. split; assumption. }
  unfold history. rewrite Eq.
  destruct (select_eq Performance.SupplierID selected_supplier_id
                      performance_data) as [|h hs] eqn:Eh; [destruct Hh|].
  simpl Nat.ltb. cbv iota.
  destruct (select_eq Performance.Quarter q (h :: hs)) as [|p ps] eqn:El;
    [destruct Hl|].
  exists p. split; [reflexivity|].
  assert (Hp : In p (select_eq Performance.Quarter q (h :: hs)))
    by (rewrite El; now left).
  apply select_eq_In in Hp. destruct Hp as [Hp Hpq].
  rewrite <- Eh in Hp. apply select_eq_In in Hp. destruct Hp as [Hp Hps].
  split; [assumption|]. split; [assumption|]. congruence.
Qed.

End LatestQuarterProofs.

Section RiskProofs.
Import Py Pandas OrderSpec SupplierRisk RiskIndicators.
Local Open Scope Q_scope.

(** X20. The risk score is a weighted mean of the four indicators with
    weights adding up to one: when every indicator lies between two
    bounds, so does the risk score. *)
Theorem risk_score_within_indicators (r : risk_row) (lo hi : Q) :
  lo <= FinancialRisk r /\ FinancialRisk r <= hi ->
  lo <= ESGRisk r /\ ESGRisk r <= hi ->
  lo <= ComplianceRisk r /\ ComplianceRisk r <= hi ->
  lo <= GeopoliticalRisk r /\ GeopoliticalRisk r <= hi ->
  lo <= RiskScore r /\ RiskScore r <= hi.
Proof.
  unfold RiskScore. intros [? ?] [? ?] [? ?] [? ?]. split; lra.
Qed.

Lemma In_if_singleton {A} (b : bool) (x a : A) :
  In a (if b then [x] else []) <-> b = true /\ a = x.
Proof.
  destruct b; simpl; split.
  - intros [<-|[]]. auto.
  - intros [_ ->]. now left.
  - intros [].
  - intros [H _]. discriminate.
Qed.

Lemma alerts_In (selected_supplier : risk_row) (a : alert) :
  In a (alerts selected_supplier) <->
  (7 < FinancialRisk selected_supplier /\ a = FinancialAlert) \/
  (7 < ESGRisk selected_supplier /\ a = ESGAlert) \/
  (exists d, DeliveryScore selected_supplier = Some d /\ d < 6
             /\ a = PerformanceAlert).
Proof.
  unfold alerts. rewrite !in_app_iff, !In_if_singleton, !Qgtb_true.
  destruct (DeliveryScore selected_supplier) as [d|].
  - rewrite In_if_singleton, Qltb_true. split.
    + intros [H|[H|[H1 H2]]]; auto. right. right. exists d. auto.
    + intros [H|[H|[d' [H1 [H2 H3]]]]]; auto.
      injection H1 as <-. auto.
  - simpl. split.
    + intros [H|[H|[]]]; auto.
    + intros [H|[H|[d' [H1 _]]]]; auto. discriminate.
Qed.

(** X21. The three risk alerts are independent of one another: each is
    shown exactly when its own threshold is crossed (financial risk
    above 7, ESG risk above 7, delivery score below 6), each at most
    once, and the list is empty exactly when none is crossed. *)
Theorem alerts_independent (selected_supplier : risk_row) :
  (In FinancialAlert (alerts selected_supplier)
   <-> 7 < FinancialRisk selected_supplier) /\
  (In ESGAlert (alerts selected_supplier)
   <-> 7 < ESGRisk selected_supplier) /\
  (In PerformanceAlert (alerts selected_supplier)
   <-> exists d, DeliveryScore selected_supplier = Some d /\ d < 6) /\
  NoDup (alerts selected_supplier) /\
  (alerts selected_supplier = [] <->
   FinancialRisk selected_supplier <= 7 /\
   ESGRisk selected_supplier <= 7 /\
   forall d, DeliveryScore selected_supplier = Some d -> 6 <= d).
Proof.
  split.
  { rewrite alerts_In. split.
    - intros [[H _]|[[_ H]|[d [_ [_ H]]]]]; [assumption | discriminate..].
    - intro H. left. auto. }
  split.
  { rewrite alerts_In. split.
    - intros [[_ H]|[[H _]|[d [_ [_ H]]]]]; [discriminate | assumption
                                             | discriminate].
    - intro H. right. left. auto. }
  split.
  { rewrite alerts_In. split.
    - intros [[_ H]|[[_ H]|[d [H1 [H2 _]]]]]; [discriminate.. | eauto].
    - intros [d [H1 H2]]. right. right. exists d. auto. }
  split.
  { unfold alerts.
    destruct (Qgtb (FinancialRisk selected_supplier) 7);
      destruct (Qgtb (ESGRisk selected_supplier) 7);
      (destruct (DeliveryScore selected_supplier) as [d|];
        [destruct (Qltb d 6)|]);
      simpl; repeat constructor; simpl; intuition discriminate. }
  split.
  - intro E.
    assert (Hno : forall a, ~ In a (alerts selected_supplier))
      by (intros a Ha; rewrite E in Ha; destruct Ha).
    split; [|split].
    + apply Qnot_lt_le. intro H. apply (Hno FinancialAlert).
      apply alerts_In. auto.
    + apply Qnot_lt_le. intro H. apply (Hno ESGAlert).
      apply alerts_In. auto.
    + intros d Hd. apply Qnot_lt_le. intro H. apply (Hno PerformanceAlert).
      apply alerts_In. right. right. exists d. auto.
  - intros [Hf [He Hd]].
    destruct (alerts selected_supplier) as [|a rest] eqn:E; [reflexivity|].
    exfalso.
    assert (Ha : In a (alerts selected_supplier)) by (rewrite E; now left).
    apply alerts_In in Ha.
    destruct Ha as [[H _]|[[H _]|[d [H1 [H2 _]]]]].
    + exact (Qlt_not_le _ _ H Hf).
    + exact (Qlt_not_le _ _ H He).
    + exact (Qlt_not_le _ _ H2 (Hd d H1)).
Qed.

(** X22. The high-risk chart shows at most ten suppliers, ranked by
    descending risk score, each of them a row of the filtered table, and
    no supplier left out has a higher risk score than a supplier shown. *)
Theorem high_risk_top10 (supplier_performance : list risk_row) :
  (List.length (high_risk_suppliers supplier_performance) <= 10)%nat /\
  descending RiskScore (high_risk_suppliers supplier_performance) /\
  (forall r, In r (high_risk_suppliers supplier_performance) ->
             In r supplier_performance) /\
  (forall r, In r supplier_performance ->
             In r (high_risk_suppliers supplier_performance) \/
             forall b, In b (high_risk_suppliers supplier_performance) ->
                       RiskScore r <= RiskScore b).
Proof.
  unfold high_risk_suppliers.
  destruct (head_of_ranking _ RiskScore 10
              (sort_values_desc RiskScore supplier_performance)
              (sort_values_desc_sorted _ RiskScore supplier_performance))
    as [Hlen [Hd [Hin Hdom]]].
  split; [exact Hlen|]. split; [exact Hd|]. split.
  - intros r Hr.
    apply (Permutation_in _ (sort_values_desc_perm _ RiskScore _)).
    now apply Hin.
  - intros r Hr. apply Hdom.
    apply (Permutation_in _ (Permutation_sym
                               (sort_values_desc_perm _ RiskScore _))).
    exact Hr.
Qed.

End RiskProofs.

(** ** The supplier relationship page *)

Section RelationshipProofs.
Import Py Pandas SupplierRelationship.
Local Open Scope Q_scope.

Variable series_sum : list Q -> Q.
Variable group_sum : list Q -> Q.

Lemma filter_length_bound {A} (f : A -> bool) (l : list A) :
  (List.length (filter f l) <= List.length l)%nat.
Proof.
  induction l as [|a l IH]; simpl; [lia|]. destruct (f a); simpl; lia.
Qed.

(** A share of a non-empty list is a percentage. *)
Lemma share_le_range (l : list Q) (bound : Q) :
  l <> [] -> 0 <= share_le l bound * 100 /\ share_le l bound * 100 <= 100.
Proof.
  intro Hne. unfold share_le.
  set (c := List.length (filter (fun t => Qle_bool t bound) l)).
  set (n := List.length l).
  assert (Hcn : (c <= n)%nat) by apply filter_length_bound.
  assert (Hn : 0 < inject_Z (Z.of_nat n)).
  { change 0 with (inject_Z 0). rewrite <- Zlt_Qlt. subst n.
    destruct l; [congruence | simpl; lia]. }
  assert (Hlo : 0 <= inject_Z (Z.of_nat c) / inject_Z (Z.of_nat n)).
  { apply Qle_shift_div_l; [assumption|]. rewrite Qmult_0_l.
    change 0 with (inject_Z 0). rewrite <- Zle_Qle. lia. }
  assert (Hhi : inject_Z (Z.of_nat c) / inject_Z (Z.of_nat n) <= 1).
  { apply Qle_shift_div_r; [assumption|]. rewrite Qmult_1_l.
    rewrite <- Zle_Qle. lia. }
  split; lra.
Qed.

(** No entry at or below the bound: the share is 0. *)
Lemma share_le_none (l : list Q) (bound : Q) :
  (forall t, In t l -> bound < t) -> share_le l bound * 100 == 0.
Proof.
  intro Hall. unfold share_le.
  rewrite filter_none.
  - simpl. reflexivity.
  - intros t Ht. apply Hall in Ht.
    destruct (Qle_bool t bound) eqn:E; [|reflexivity].
    apply Qle_bool_iff in E. exfalso. exact (Qlt_not_le _ _ Ht E).
Qed.

(** The group-by has one total per supplier with spend rows, in
    ascending order of the supplier names: the group sum of that
    supplier's amounts. *)
Lemma all_suppliers_spend_groups (spend_data : list Spend.row) :
  all_suppliers_spend group_sum spend_data
  = map (fun s => group_sum (map Spend.Amount (supplier_spend spend_data s)))
        (sorted_unique String.compare (map Spend.Supplier spend_data)).
Proof.
  unfold all_suppliers_spend, groupby, supplier_spend, select_eq.
  rewrite map_map, keys_of_total. apply map_ext. intro s. simpl.
  rewrite (filter_ext _ _ (has_key_string Spend.Supplier s)). reflexivity.
Qed.

Lemma all_suppliers_spend_nonempty (spend_data : list Spend.row)
      (supplier_name : string) :
  supplier_spend spend_data supplier_name <> [] ->
  all_suppliers_spend group_sum spend_data <> [].
Proof.
  intros Hne E. rewrite all_suppliers_spend_groups in E.
  apply map_eq_nil in E.
  destruct (supplier_spend spend_data supplier_name) as [|r rs] eqn:Er;
    [congruence|].
  assert (Hr : In r (supplier_spend spend_data supplier_name))
    by (rewrite Er; now left).
  apply (select_eq_In Spend.Supplier supplier_name spend_data r) in Hr.
  destruct Hr as [Hr _].
  assert (Hs : In (Spend.Supplier r)
                  (sorted_unique String.compare (map Spend.Supplier spend_data))).
  { apply (sorted_unique_In string String.compare string_cmp_eq).
    now apply in_map. }
  rewrite E in Hs. destruct Hs.
Qed.

Lemma total_spend_positive (spend_data : list Spend.row) (supplier_name : string) :
  0 < total_spend series_sum spend_data supplier_name ->
  supplier_spend spend_data supplier_name <> [].
Proof.
  unfold total_spend. intros H E. rewrite E in H. simpl in H.
  exact (Qlt_irrefl 0 H).
Qed.

Lemma tier_spend_percentile_rows (spend_data : list Spend.row)
      (supplier_name : string) :
  supplier_spend spend_data supplier_name <> [] ->
  tier_spend_percentile series_sum group_sum spend_data supplier_name
  = Some (share_le (all_suppliers_spend group_sum spend_data)
                   (total_spend series_sum spend_data supplier_name) * 100).
Proof.
  intro Hne. unfold tier_spend_percentile.
  destruct (supplier_spend spend_data supplier_name); [congruence|].
  reflexivity.
Qed.

(** X23. The supplier tier, whatever the two summations round to: a
    supplier without spend rows is "Unknown"; a supplier with spend rows
    has a percentile between 0 and 100 and is "Strategic" from 80, "Key"
    from 50 and "Standard" below; and it is "Strategic" when every
    group-by total compares at most its own column total. *)
Theorem supplier_tier_levels
        (spend_data : list Spend.row) (supplier_name : string) :
  (supplier_spend spend_data supplier_name = [] ->
   supplier_tier series_sum group_sum spend_data supplier_name
   = "Unknown"%string) /\
  (supplier_spend spend_data supplier_name <> [] ->
   exists p,
     tier_spend_percentile series_sum group_sum spend_data supplier_name
     = Some p /\
     0 <= p /\ p <= 100 /\
     (80 <= p ->
      supplier_tier series_sum group_sum spend_data supplier_name
      = "Strategic"%string) /\
     (50 <= p -> p < 80 ->
      supplier_tier series_sum group_sum spend_data supplier_name
      = "Key"%string) /\
     (p < 50 ->
      supplier_tier series_sum group_sum spend_data supplier_name
      = "Standard"%string)) /\
  (supplier_spend spend_data supplier_name <> [] ->
   (forall t, In t (all_suppliers_spend group_sum spend_data) ->
              t <= total_spend series_sum spend_data supplier_name) ->
   supplier_tier series_sum group_sum spend_data supplier_name
   = "Strategic"%string).
Proof.
  split.
  { intro E. unfold supplier_tier, tier_spend_percentile. rewrite E.
    reflexivity. }
  split.
  { intro Hne. eexists. split; [exact (tier_spend_percentile_rows _ _ Hne)|].
    destruct (share_le_range (all_suppliers_spend group_sum spend_data)
                (total_spend series_sum spend_data supplier_name)
                (all_suppliers_spend_nonempty _ _ Hne)) as [Hlo Hhi].
    split; [exact Hlo|]. split; [exact Hhi|].
    unfold supplier_tier. rewrite (tier_spend_percentile_rows _ _ Hne).
    split; [|split].
    - intro H. apply Qgeb_true in H. rewrite H. reflexivity.
    - intros H1 H2. apply Qgeb_true in H1. apply Qgeb_false in H2.
      rewrite H2, H1. reflexivity.
    - intro H.
      assert (H' : share_le (all_suppliers_spend group_sum spend_data)
                     (total_spend series_sum spend_data supplier_name) * 100
                   < 80) by lra.
      apply Qgeb_false in H. apply Qgeb_false in H'. rewrite H', H.
      reflexivity. }
  intros Hne Hall. unfold supplier_tier.
  rewrite (tier_spend_percentile_rows _ _ Hne).
  assert (H100 : share_le (all_suppliers_spend group_sum spend_data)
                   (total_spend series_sum spend_data supplier_name) * 100
                 == 100).
  { apply share_le_all; [|assumption].
    exact (all_suppliers_spend_nonempty _ _ Hne). }
  assert (H80 : Qgeb (share_le (all_suppliers_spend group_sum spend_data)
                        (total_spend series_sum spend_data supplier_name) * 100)
                     80 = true).
  { apply Qgeb_true. rewrite H100. discriminate. }
  rewrite H80. reflexivity.
Qed.

(** X27. The spend percentile of the segmentation overview, whatever the
    two summations round to: it is a percentage between 0 and 100; it is
    0 for a supplier without spend rows and for one whose total is zero
    or negative; for a positive total it is the share of the group-by
    totals that compare at most the total, and 100 when all of them do. *)
Theorem spend_percentile_range
        (spend_data : list Spend.row) (supplier_name : string) :
  let totals := all_suppliers_spend group_sum spend_data in
  let total := total_spend series_sum spend_data supplier_name in
  0 <= spend_percentile series_sum group_sum spend_data supplier_name /\
  spend_percentile series_sum group_sum spend_data supplier_name <= 100 /\
  (supplier_spend spend_data supplier_name = [] ->
   spend_percentile series_sum group_sum spend_data supplier_name = 0) /\
  (total <= 0 ->
   spend_percentile series_sum group_sum spend_data supplier_name = 0) /\
  (0 < total ->
   spend_percentile series_sum group_sum spend_data supplier_name
   = inject_Z (Z.of_nat (List.length
                           (filter (fun t => Qle_bool t total) totals)))
     / inject_Z (Z.of_nat (List.length totals)) * 100) /\
  (0 < total -> (forall t, In t totals -> t <= total) ->
   spend_percentile series_sum group_sum spend_data supplier_name == 100).
Proof.
  cbv zeta.
  assert (Hpos : 0 < total_spend series_sum spend_data supplier_name ->
                 spend_percentile series_sum group_sum spend_data supplier_name
                 = share_le (all_suppliers_spend group_sum spend_data)
                            (total_spend series_sum spend_data supplier_name)
                   * 100).
  { intro H. unfold spend_percentile. apply Qgtb_true in H. rewrite H.
    reflexivity. }
  assert (Hzero : total_spend series_sum spend_data supplier_name <= 0 ->
                  spend_percentile series_sum group_sum spend_data supplier_name
                  = 0).
  { intro H. unfold spend_percentile. apply Qgtb_false in H. rewrite H.
    reflexivity. }
  assert (Hrange :
            0 <= spend_percentile series_sum group_sum spend_data supplier_name
            /\ spend_percentile series_sum group_sum spend_data supplier_name
               <= 100).
  { destruct (Qlt_le_dec 0 (total_spend series_sum spend_data supplier_name))
      as [H|H].
    - rewrite (Hpos H). apply share_le_range.
      exact (all_suppliers_spend_nonempty _ _ (total_spend_positive _ _ H)).
    - rewrite (Hzero H). split; discriminate. }
  split; [exact (proj1 Hrange)|]. split; [exact (proj2 Hrange)|].
  split.
  { intro E. apply Hzero. unfold total_spend. rewrite E. simpl.
    apply Qle_refl. }
  split; [exact Hzero|].
  split; [exact Hpos|].
  intros H Hall. rewrite (Hpos H). apply share_le_all; [|assumption].
  exact (all_suppliers_spend_nonempty _ _ (total_spend_positive _ _ H)).
Qed.

(** X28. The two paths disagree on a supplier with spend rows whose
    total is zero or negative and at least every group-by total: the
    tier metric gives it percentile 100 and the tier "Strategic", the
    segmentation overview gives it percentile 0. *)
Theorem zero_total_paths_disagree
        (spend_data : list Spend.row) (supplier_name : string) :
  supplier_spend spend_data supplier_name <> [] ->
  total_spend series_sum spend_data supplier_name <= 0 ->
  (forall t, In t (all_suppliers_spend group_sum spend_data) ->
             t <= total_spend series_sum spend_data supplier_name) ->
  (exists p,
      tier_spend_percentile series_sum group_sum spend_data supplier_name
      = Some p /\ p == 100) /\
  supplier_tier series_sum group_sum spend_data supplier_name
  = "Strategic"%string /\
  spend_percentile series_sum group_sum spend_data supplier_name = 0.
Proof.
  intros Hne Hzero Hall.
  assert (H100 : share_le (all_suppliers_spend group_sum spend_data)
                   (total_spend series_sum spend_data supplier_name) * 100
                 == 100).
  { apply share_le_all; [|assumption].
    exact (all_suppliers_spend_nonempty _ _ Hne). }
  split.
  { eexists. split; [exact (tier_spend_percentile_rows _ _ Hne) | exact H100]. }
  split.
  { unfold supplier_tier. rewrite (tier_spend_percentile_rows _ _ Hne).
    assert (H80 : Qgeb (share_le (all_suppliers_spend group_sum spend_data)
                          (total_spend series_sum spend_data supplier_name)
                        * 100) 80 = true)
      by (apply Qgeb_true; rewrite H100; discriminate).
    rewrite H80. reflexivity. }
  unfold spend_percentile. apply Qgtb_false in Hzero. rewrite Hzero.
  reflexivity.
Qed.

(** C5, at a supplier whose three invoices are 19.99, 4.35 and 2.2: the
    only supplier of the table and so the one with the highest spend.
    When the group sum of the three amounts compares above their column
    sum, no group-by total is at most the supplier's own total: the tier
    metric has percentile 0 and tier "Standard", and the segmentation
    overview has percentile 0, where the claim has 100. *)
Theorem spend_percentile_rounding_slip :
  series_sum Float64.invoice_amounts < group_sum Float64.invoice_amounts ->
  supplier_spend Float64.three_invoices "A" = Float64.three_invoices /\
  all_suppliers_spend group_sum Float64.three_invoices
  = [group_sum Float64.invoice_amounts] /\
  total_spend series_sum Float64.three_invoices "A"
  = series_sum Float64.invoice_amounts /\
  (exists p,
      tier_spend_percentile series_sum group_sum Float64.three_invoices "A"
      = Some p /\ p == 0) /\
  supplier_tier series_sum group_sum Float64.three_invoices "A"
  = "Standard"%string /\
  spend_percentile series_sum group_sum Float64.three_invoices "A" == 0 /\
  ~ spend_percentile series_sum group_sum Float64.three_invoices "A" == 100.
Proof.
  intro Hlt.
  assert (Hrows : supplier_spend Float64.three_invoices "A"
                  = Float64.three_invoices) by reflexivity.
  assert (Htotals : all_suppliers_spend group_sum Float64.three_invoices
                    = [group_sum Float64.invoice_amounts]) by reflexivity.
  assert (Htotal : total_spend series_sum Float64.three_invoices "A"
                   = series_sum Float64.invoice_amounts) by reflexivity.
  assert (Hshare : share_le (all_suppliers_spend group_sum Float64.three_invoices)
                     (total_spend series_sum Float64.three_invoices "A") * 100
                   == 0).
  { apply share_le_none. rewrite Htotals, Htotal.
    intros t [<-|[]]. exact Hlt. }
  assert (Hne : supplier_spend Float64.three_invoices "A" <> [])
    by (rewrite Hrows; discriminate).
  assert (Hseg : spend_percentile series_sum group_sum
                   Float64.three_invoices "A" == 0).
  { unfold spend_percentile.
    destruct (Qgtb (total_spend series_sum Float64.three_invoices "A") 0);
      [exact Hshare | reflexivity]. }
  split; [exact Hrows|]. split; [exact Htotals|]. split; [exact Htotal|].
  split.
  { eexists. split; [exact (tier_spend_percentile_rows _ _ Hne) | exact Hshare]. }
  split.
  { unfold supplier_tier. rewrite (tier_spend_percentile_rows _ _ Hne).
    assert (H80 : Qgeb (share_le (all_suppliers_spend group_sum
                                     Float64.three_invoices)
                          (total_spend series_sum Float64.three_invoices "A")
                        * 100) 80 = false)
      by (apply Qgeb_false; rewrite Hshare; reflexivity).
    assert (H50 : Qgeb (share_le (all_suppliers_spend group_sum
                                     Float64.three_invoices)
                          (total_spend series_sum Float64.three_invoices "A")
                        * 100) 50 = false)
      by (apply Qgeb_false; rewrite Hshare; reflexivity).
    rewrite H80, H50. reflexivity. }
  split; [exact Hseg|].
  intro H. rewrite Hseg in H. discriminate.
Qed.

End RelationshipProofs.

Section ContractProofs.
Import Py Pandas Contracts.
Local Open Scope Z_scope.

(** X24. The days remaining on a contract are the whole days between
    now and the midnight that starts its end date, rounded down: the
    calendar difference at midnight exactly, and one day less at any
    later time of the day. *)
Theorem days_until_expiry_rounds_down (end_date : Z) (current_date : datetime) :
  0 <= microsecond current_date < day_us ->
  (microsecond current_date = 0 ->
   days_until_expiry end_date current_date = end_date - today current_date) /\
  (0 < microsecond current_date ->
   days_until_expiry end_date current_date
   = end_date - today current_date - 1).
Proof.
  unfold days_until_expiry, day_us. intros [H0 H1]. split; intro H.
  - symmetry.
    apply (Z.div_unique_pos _ 86400000000 _ 0); lia.
  - symmetry.
    apply (Z.div_unique_pos _ 86400000000 _
             (86400000000 - microsecond current_date)); lia.
Qed.

Lemma In_flat_map_if {A B} (f : A -> B) (c : A -> bool) (l : list A) (y : B) :
  In y (flat_map (fun x => if c x then [f x] else []) l)
  <-> exists x, In x l /\ c x = true /\ y = f x.
Proof.
  rewrite in_flat_map. split.
  - intros [x [Hx Hy]]. exists x. split; [assumption|].
    destruct (c x); [|destruct Hy]. destruct Hy as [<-|[]]. auto.
  - intros [x [Hx [Hc ->]]]. exists x. split; [assumption|].
    rewrite Hc. now left.
Qed.

(** X25. Contract alerts are raised only for contracts of the selected
    supplier whose status is "Active": "expiring soon" for those with at
    most 90 days remaining (a contract already past its end date but
    still marked active included), "approaching auto-renewal" for those
    that renew automatically and are within their notice period.  When
    no notice period exceeds 90 days, every renewal alert is also an
    expiring-soon alert. *)
Theorem contract_alerts_scope
        (contract_data : list row) (selected_supplier_id : string)
        (current_date : datetime) :
  let expiring_soon :=
    fst (contract_alerts contract_data selected_supplier_id current_date) in
  let renewal_alert :=
    snd (contract_alerts contract_data selected_supplier_id current_date) in
  (forall c d,
      In (c, d) expiring_soon <->
      In c contract_data /\ SupplierID c = selected_supplier_id /\
      Status c = "Active"%string /\
      d = days_until_expiry (EndDate c) current_date /\ d <= 90) /\
  (forall c d,
      In (c, d) renewal_alert <->
      In c contract_data /\ SupplierID c = selected_supplier_id /\
      Status c = "Active"%string /\
      d = days_until_expiry (EndDate c) current_date /\
      AutoRenewal c = true /\ d <= NoticePeriodDays c) /\
  ((forall c, In c contract_data -> NoticePeriodDays c <= 90) ->
   forall a, In a renewal_alert -> In a expiring_soon).
Proof.
  cbv zeta. unfold contract_alerts. simpl.
  assert (Hact : forall c,
             In c (select_eq Status "Active"
                     (select_eq SupplierID selected_supplier_id contract_data))
             <-> In c contract_data /\ SupplierID c = selected_supplier_id /\
                 Status c = "Active"%string).
  { intro c. rewrite !select_eq_In. tauto. }
  assert (He : forall c d,
    In (c, d)
       (flat_map
          (fun contract =>
             if days_until_expiry (EndDate contract) current_date <=? 90
             then [(contract, days_until_expiry (EndDate contract) current_date)]
             else [])
          (select_eq Status "Active"
             (select_eq SupplierID selected_supplier_id contract_data)))
    <-> In c contract_data /\ SupplierID c = selected_supplier_id /\
        Status c = "Active"%string /\
        d = days_until_expiry (EndDate c) current_date /\ d <= 90).
  { intros c d.
    rewrite (In_flat_map_if
               (fun x => (x, days_until_expiry (EndDate x) current_date))
               (fun x => days_until_expiry (EndDate x) current_date <=? 90)).
    split.
    - intros [x [Hx [Hc Heq]]]. injection Heq as -> ->.
      apply Hact in Hx. apply Z.leb_le in Hc. tauto.
    - intros [H1 [H2 [H3 [-> H5]]]]. exists c.
      split; [apply Hact; tauto|]. split; [now apply Z.leb_le | reflexivity]. }
  assert (Hr : forall c d,
    In (c, d)
       (flat_map
          (fun contract =>
             if AutoRenewal contract
                && (days_until_expiry (EndDate contract) current_date
                    <=? NoticePeriodDays contract)
             then [(contract, days_until_expiry (EndDate contract) current_date)]
             else [])
          (select_eq Status "Active"
             (select_eq SupplierID selected_supplier_id contract_data)))
    <-> In c contract_data /\ SupplierID c = selected_supplier_id /\
        Status c = "Active"%string /\
        d = days_until_expiry (EndDate c) current_date /\
        AutoRenewal c = true /\ d <= NoticePeriodDays c).
  { intros c d.
    rewrite (In_flat_map_if
               (fun x => (x, days_until_expiry (EndDate x) current_date))
               (fun x => AutoRenewal x
                         && (days_until_expiry (EndDate x) current_date
                             <=? NoticePeriodDays x))).
    split.
    - intros [x [Hx [Hc Heq]]]. injection Heq as -> ->.
      apply Hact in Hx. apply andb_true_iff in Hc. destruct Hc as [Ha Hd].
      apply Z.leb_le in Hd. tauto.
    - intros [H1 [H2 [H3 [-> [H5 H6]]]]]. exists c.
      split; [apply Hact; tauto|]. split; [|reflexivity].
      apply andb_true_iff. split; [assumption | now apply Z.leb_le]. }
  split; [exact He|]. split; [exact Hr|].
  intros Hnotice [c d] Hin. apply Hr in Hin. apply He.
  destruct Hin as [H1 [H2 [H3 [H4 [H5 H6]]]]].
  specialize (Hnotice c H1). repeat split; try assumption. lia.
Qed.

End ContractProofs.

Section MockDataProofs.
Import MockData.
Local Open Scope Z_scope.

(** X26. The status of a generated contract: its start date never lies
    after the generation time, so it is never "Future"; it is "Expired"
    exactly when its duration is shorter than the time since its start
    and "Active" otherwise; a contract drawn with a duration of four or
    five years is always "Active". *)
Theorem generated_contract_status
        (current_date years_ago months_ago duration_years : Z) :
  0 <= years_ago -> 0 <= months_ago ->
  contract_status current_date years_ago months_ago duration_years
  <> "Future"%string /\
  (contract_status current_date years_ago months_ago duration_years
   = "Expired"%string
   <-> 365 * duration_years < 365 * years_ago + 30 * months_ago) /\
  (contract_status current_date years_ago months_ago duration_years
   = "Active"%string
   <-> 365 * years_ago + 30 * months_ago <= 365 * duration_years) /\
  (years_ago <= 3 -> months_ago <= 11 -> 4 <= duration_years ->
   contract_status current_date years_ago months_ago duration_years
   = "Active"%string).
Proof.
  intros Hy Hm.
  unfold contract_status, status_of, end_date, start_date, timedelta_days.
  destruct (Z.ltb_spec
              (current_date - (365 * years_ago + 30 * months_ago) * 86400000000
               + 365 * duration_years * 86400000000) current_date) as [He|He].
  - repeat split; intros; try congruence; try lia; exfalso; lia.
  - destruct (Z.ltb_spec current_date
                (current_date
                 - (365 * years_ago + 30 * months_ago) * 86400000000))
      as [Hf|Hf]; [exfalso; lia|].
    repeat split; intros; try congruence; try lia; exfalso; lia.
Qed.

End MockDataProofs.

(** ** The further properties at sample inputs *)

Lemma spend_checks_in_order_witness :
  DataManager.load_data MoreSamples.read_csv MoreSamples.read_excel
                        MoreSamples.nulls_file None
  = Py.Ok MoreSamples.nulls_frame /\
  DataManager.validate_data MoreSamples.read_csv MoreSamples.read_excel
                            MoreSamples.nulls_file DataManager.SpendData
  = (false, "Found 2 rows with missing supplier information", None).
Proof.
  split; [reflexivity|].
  refine (proj2 (spend_checks_in_order
                   MoreSamples.read_csv MoreSamples.read_excel
                   MoreSamples.nulls_file MoreSamples.nulls_frame
                   MoreSamples.amount_column MoreSamples.supplier_column
                   eq_refl _ eq_refl eq_refl) eq_refl _).
  - intros col Hc. simpl in Hc. simpl.
    repeat (destruct Hc as [<-|Hc]; [tauto|]). destruct Hc.
  - unfold Frame.isnull_sum. simpl. lia.
Defined.

Lemma extra_columns_accepted_witness :
  DataManager.is_valid
    (DataManager.validate_data MoreSamples.read_csv MoreSamples.read_excel
                               Samples.spend_file DataManager.SpendData)
  = true /\
  DataManager.validate_data MoreSamples.read_csv MoreSamples.read_excel
                            MoreSamples.wide_file DataManager.SpendData
  = (true, "Data validated successfully",
     Some (Samples.spend_frame ++ MoreSamples.extra_columns)%list).
Proof.
  split; [reflexivity|].
  exact (extra_columns_accepted
           MoreSamples.read_csv MoreSamples.read_excel
           Samples.spend_file MoreSamples.wide_file DataManager.SpendData
           Samples.spend_frame MoreSamples.extra_columns
           eq_refl eq_refl eq_refl).
Defined.

Lemma accepted_upload_replaces_one_table_witness :
  App.getitem_state
    (fst (App.handle_upload MoreSamples.read_csv MoreSamples.read_excel
                            Samples.store MoreSamples.wide_file
                            DataManager.SpendData))
    (App.data_type_map DataManager.SpendData)
  = Some (Samples.spend_frame ++ MoreSamples.extra_columns)%list.
Proof.
  refine (proj1 (accepted_upload_replaces_one_table
                   MoreSamples.read_csv MoreSamples.read_excel
                   Samples.store MoreSamples.wide_file DataManager.SpendData
                   (Samples.spend_frame ++ MoreSamples.extra_columns)%list
                   eq_refl _)).
  apply (validate_data_valid_schema
           MoreSamples.read_csv MoreSamples.read_excel
           MoreSamples.wide_file DataManager.SpendData _ eq_refl eq_refl).
Defined.

Lemma uploads_compose_witness :
  fst (App.handle_upload MoreSamples.read_csv MoreSamples.read_excel
         (fst (App.handle_upload MoreSamples.read_csv MoreSamples.read_excel
                                 Samples.store MoreSamples.wide_file
                                 DataManager.SpendData))
         Samples.spend_file DataManager.SpendData)
  = fst (App.handle_upload MoreSamples.read_csv MoreSamples.read_excel
                           Samples.store Samples.spend_file
                           DataManager.SpendData).
Proof.
  apply (proj1 (uploads_compose
                  MoreSamples.read_csv MoreSamples.read_excel Samples.store
                  MoreSamples.wide_file Samples.spend_file
                  DataManager.SpendData DataManager.ContractData)).
  reflexivity.
Defined.

Lemma opportunity_alert_first_match_witness :
  SampleRows.four_suppliers <> [] /\
  CategoryOverview.opportunity_alert SampleRows.four_suppliers
  = [CategoryOverview.SupplierConsolidation].
Proof.
  split; [discriminate|].
  apply (proj1 (opportunity_alert_first_match SampleRows.four_suppliers
                  ltac:(discriminate))).
  vm_compute. lia.
Defined.

Lemma zero_guard_shows_stable_witness :
  CategoryOverview.trend_box SampleRows.credit_first
  = Some (CategoryOverview.StablePattern, "info").
Proof.
  apply (zero_guard_shows_stable SampleRows.credit_first).
  - vm_compute. lia.
  - vm_compute. discriminate.
Defined.

Lemma default_view_is_whole_table_witness :
  HeapSpec.yields
    (CategoryIntelligence.apply_filters
       0%nat "All Categories" "All Business Units"
       (CategoryOverview.default_date_range SampleRows.four_suppliers))
    [SampleRows.four_suppliers] SampleRows.four_suppliers.
Proof.
  apply (default_view_is_whole_table
           [SampleRows.four_suppliers] 0%nat SampleRows.four_suppliers).
  reflexivity.
Defined.


Lemma supplier_map_one_marker_each_witness :
  map fst (Charts.markers
             (Charts.create_supplier_map
                [SampleRows.acme; SampleRows.bolt]
                (Some SampleRows.performance)))
  = [SampleRows.acme; SampleRows.bolt].
Proof.
  exact (proj1 (supplier_map_one_marker_each
                  [SampleRows.acme; SampleRows.bolt] SampleRows.performance)).
Defined.

Lemma supplier_chart_top15_witness :
  NoDup (map Supplier.SupplierID [SampleRows.acme; SampleRows.bolt]) /\
  snd (hd (EmptyString, (EmptyString, EmptyString), 0%Q)
          (Visualizations.bars
             (Visualizations.create_supplier_chart
                SampleRows.performance [SampleRows.acme; SampleRows.bolt]
                Performance.OverallScore)))
  = Pandas.mean
      (map Performance.OverallScore
           (Pandas.select_eq Performance.SupplierID "S1"
                             SampleRows.performance)).
Proof.
  assert (Hnd : NoDup (map Supplier.SupplierID
                           [SampleRows.acme; SampleRows.bolt]))
    by (repeat constructor; simpl; intuition discriminate).
  split; [exact Hnd|].
  apply (proj2 (proj2 (proj2 (supplier_chart_top15
                                SampleRows.performance
                                [SampleRows.acme; SampleRows.bolt]
                                Performance.OverallScore)))
               Hnd ("S1"%string, ("Acme"%string, "HVAC"%string))).
  vm_compute. left. reflexivity.
Defined.

Lemma latest_quarter_is_maximum_witness :
  exists q,
    SupplierRisk.latest_quarter SampleRows.performance = Some q /\
    forall p, In p SampleRows.performance ->
              String.leb (Performance.Quarter p) q = true.
Proof.
  destruct (proj2 (latest_quarter_is_maximum SampleRows.performance)
                  ltac:(discriminate)) as [q [H1 [_ [H2 _]]]].
  exists q. split; assumption.
Defined.

Lemma selected_supplier_has_latest_assessment_witness :
  exists p,
    RiskIndicators.history SampleRows.performance "S1"
    = Py.Ok (RiskIndicators.LatestAssessment p).
Proof.
  destruct (selected_supplier_has_latest_assessment
              [SampleRows.acme; SampleRows.bolt] SampleRows.performance
              (1, 10)%Q "S1") as [p [H _]].
  - vm_compute. now left.
  - exists p. exact H.
Defined.

Lemma risk_score_within_indicators_witness :
  (1 <= RiskIndicators.RiskScore MoreSamples.risky)%Q /\
  (RiskIndicators.RiskScore MoreSamples.risky <= 10)%Q.
Proof.
  apply (risk_score_within_indicators MoreSamples.risky 1 10);
    split; vm_compute; discriminate.
Defined.

Lemma high_risk_top10_witness :
  In MoreSamples.risky (RiskIndicators.high_risk_suppliers [MoreSamples.risky])
  /\ In MoreSamples.risky [MoreSamples.risky].
Proof.
  assert (Hin : In MoreSamples.risky
                   (RiskIndicators.high_risk_suppliers [MoreSamples.risky]))
    by (vm_compute; left; reflexivity).
  split; [exact Hin|].
  exact (proj1 (proj2 (proj2 (high_risk_top10 [MoreSamples.risky])))
               MoreSamples.risky Hin).
Defined.

Lemma supplier_tier_levels_witness :
  SupplierRelationship.supplier_tier Py.Qsum Py.Qsum SampleRows.four_suppliers "D"
  = "Strategic"%string.
Proof.
  apply (proj2 (proj2 (supplier_tier_levels Py.Qsum Py.Qsum
                         SampleRows.four_suppliers "D"))).
  - discriminate.
  - intros t Ht. vm_compute in Ht.
    destruct Ht as [<-|[<-|[<-|[<-|[]]]]]; vm_compute; discriminate.
Defined.

Lemma spend_percentile_range_witness :
  (0 < SupplierRelationship.total_spend Py.Qsum SampleRows.four_suppliers "D")%Q /\
  (SupplierRelationship.spend_percentile Py.Qsum Py.Qsum
     SampleRows.four_suppliers "D" == 100)%Q.
Proof.
  assert (Hpos : (0 < SupplierRelationship.total_spend Py.Qsum
                         SampleRows.four_suppliers "D")%Q) by reflexivity.
  split; [exact Hpos|].
  apply (proj2 (proj2 (proj2 (proj2 (proj2
           (spend_percentile_range Py.Qsum Py.Qsum
              SampleRows.four_suppliers "D")))))).
  - exact Hpos.
  - intros t Ht. vm_compute in Ht.
    destruct Ht as [<-|[<-|[<-|[<-|[]]]]]; vm_compute; discriminate.
Defined.

(** Added one rounded addition after the other the three amounts give
    the binary64 value printed as 26.539999999999996; compensated
    summation gives the one printed as 26.54. *)
Lemma invoice_amounts_sums :
  Float64.sum_sequential Float64.invoice_amounts
  = Float64.round (26539999999999996 # 1000000000000000) /\
  Float64.sum_compensated Float64.invoice_amounts
  = Float64.round (2654 # 100) /\
  (Float64.round (26539999999999996 # 1000000000000000)
   < Float64.round (2654 # 100))%Q.
Proof.
  split; [vm_compute; reflexivity|].
  split; [vm_compute; reflexivity|].
  vm_compute. reflexivity.
Qed.

Lemma spend_percentile_rounding_slip_witness :
  (Float64.sum_sequential Float64.invoice_amounts
   < Float64.sum_compensated Float64.invoice_amounts)%Q /\
  (0 < SupplierRelationship.total_spend
         Float64.sum_sequential Float64.three_invoices "A")%Q /\
  SupplierRelationship.supplier_tier
    Float64.sum_sequential Float64.sum_compensated Float64.three_invoices "A"
  = "Standard"%string /\
  (SupplierRelationship.spend_percentile
     Float64.sum_sequential Float64.sum_compensated Float64.three_invoices "A"
   == 0)%Q.
Proof.
  assert (Hlt : (Float64.sum_sequential Float64.invoice_amounts
                 < Float64.sum_compensated Float64.invoice_amounts)%Q)
    by (vm_compute; reflexivity).
  split; [exact Hlt|].
  split; [vm_compute; reflexivity|].
  split.
  - exact (proj1 (proj2 (proj2 (proj2 (proj2
             (spend_percentile_rounding_slip
                Float64.sum_sequential Float64.sum_compensated Hlt)))))).
  - exact (proj1 (proj2 (proj2 (proj2 (proj2 (proj2
             (spend_percentile_rounding_slip
                Float64.sum_sequential Float64.sum_compensated Hlt))))))).
Defined.

Lemma zero_total_paths_disagree_witness :
  SupplierRelationship.supplier_tier Py.Qsum Py.Qsum SampleRows.zero_invoice "A"
  = "Strategic"%string /\
  SupplierRelationship.spend_percentile Py.Qsum Py.Qsum
    SampleRows.zero_invoice "A" = 0%Q.
Proof.
  apply (proj2 (zero_total_paths_disagree Py.Qsum Py.Qsum
                  SampleRows.zero_invoice "A"
                  ltac:(discriminate)
                  ltac:(vm_compute; discriminate)
                  ltac:(intros t [<-|[]]; vm_compute; discriminate))).
Defined.

Lemma days_until_expiry_rounds_down_witness :
  Contracts.days_until_expiry 130 MoreSamples.noon = 29%Z.
Proof.
  apply (proj2 (days_until_expiry_rounds_down 130 MoreSamples.noon
                  ltac:(vm_compute; split; [discriminate | reflexivity]))).
  reflexivity.
Defined.

Lemma contract_alerts_scope_witness :
  In (Contracts.mkRow "C00011" "S1" "Active" 130 true 60, 29%Z)
     (snd (Contracts.contract_alerts MoreSamples.contracts "S1"
                                     MoreSamples.noon)) /\
  In (Contracts.mkRow "C00011" "S1" "Active" 130 true 60, 29%Z)
     (fst (Contracts.contract_alerts MoreSamples.contracts "S1"
                                     MoreSamples.noon)).
Proof.
  assert (Hin : In (Contracts.mkRow "C00011" "S1" "Active" 130 true 60, 29%Z)
                   (snd (Contracts.contract_alerts MoreSamples.contracts "S1"
                                                   MoreSamples.noon)))
    by (vm_compute; left; reflexivity).
  split; [exact Hin|].
  apply (proj2 (proj2 (contract_alerts_scope MoreSamples.contracts "S1"
                                             MoreSamples.noon))).
  - intros c [<-|[<-|[<-|[<-|[]]]]]; vm_compute; discriminate.
  - exact Hin.
Defined.

Lemma generated_contract_status_witness :
  MockData.contract_status 0 3 11 4 = "Active"%string.
Proof.
  apply (proj2 (proj2 (proj2 (generated_contract_status 0 3 11 4
                                ltac:(lia) ltac:(lia)))));
    lia.
Defined.

